(** * A shallow embedding of the YouTube downloader bot (main.py)

    The script has three handlers ([start], [format_selected],
    [handle_youtube_link]) that share one process-wide dictionary,
    [user_context], and talk to two collaborators: the chat transport
    and the extraction library.  The handlers are embedded as programs
    of a small state-and-exception monad; the collaborators are an
    explicit [world] of response functions, and every call made to them
    is recorded in a chronological trace.

    What the embedding takes from outside the script:
    - any call to a collaborator may raise; what it raises is an
      [Exception], so the two [except Exception] blocks catch it;
    - the extraction library reports its progress dictionaries to the
      hook one after the other, and an exception of the hook ends the
      download and leaves [extract_info];
    - byte counts are integers; [a / b] is the double nearest to the
      quotient, [OverflowError] when that is no finite double, and the
      format [.1%] multiplies it by 100 as a double and writes it with
      one decimal, all of it computed exactly on integers;
    - an update is dispatched as python-telegram-bot 13 does it: the
      first handler of [main] whose filter accepts the update runs, a
      [CommandHandler] and a [MessageHandler] accept edited messages
      too, and a [MessageHandler] accepts channel posts; an exception
      that leaves a handler is logged by the dispatcher, which goes on
      with the next update;
    - handlers run one at a time. *)

From Stdlib Require Import ZArith NArith List Ascii String Lia Bool.
From stdpp Require Import gmap strings list fin_maps pretty.

Open Scope Z_scope.

(** ** Python strings

    A [str] is a sequence of code points, so that slicing ([s[:100]]),
    [strip], [in] and [endswith] count characters the way Python does. *)

Abbreviation pystr := (list N).

(** An ASCII literal of the source. *)
Definition lit (s : string) : pystr :=
  (fun a => N_of_ascii a) <$> list_ascii_of_string s.

(** [s.startswith(p)] *)
Fixpoint startswith (p s : pystr) : bool :=
  match p, s with
  | [], _ => true
  | _ :: _, [] => false
  | a :: p', b :: s' => if N.eqb a b then startswith p' s' else false
  end.

(** [s.endswith(suf)] *)
Definition endswith (suf s : pystr) : bool :=
  startswith (rev suf) (rev s).

(** [s.endswith((suf1, suf2, ...))] *)
Definition endswith_any (sufs : list pystr) (s : pystr) : bool :=
  existsb (fun suf => endswith suf s) sufs.

(** [needle in s] *)
Fixpoint contains (needle s : pystr) : bool :=
  startswith needle s ||
  match s with
  | [] => false
  | _ :: s' => contains needle s'
  end.

(** The characters [str.strip()] removes: those for which
    [str.isspace] holds. *)
Definition isspace (c : N) : bool :=
  ((9 <=? c) && (c <=? 13) || (28 <=? c) && (c <=? 32) ||
   (c =? 133) || (c =? 160) || (c =? 5760) ||
   (8192 <=? c) && (c <=? 8202) || (c =? 8232) || (c =? 8233) ||
   (c =? 8239) || (c =? 8287) || (c =? 12288))%N.

Fixpoint lstrip (s : pystr) : pystr :=
  match s with
  | c :: s' => if isspace c then lstrip s' else s
  | [] => []
  end.

Definition rstrip (s : pystr) : pystr := rev (lstrip (rev s)).

(** [s.strip()] *)
Definition strip (s : pystr) : pystr := rstrip (lstrip s).

(** [s.lower()] where it matters here, in a comparison with a name made
    of ASCII characters: the letters A to Z and the Kelvin sign are the
    only characters whose lower-case form is an ASCII character; the
    others are left as they are. *)
Definition lower_char (c : N) : N :=
  (if (65 <=? c) && (c <=? 90) then c + 32
   else if c =? 8490 then 107
   else c)%N.

Definition lower (s : pystr) : pystr := lower_char <$> s.

(** [s.split(sep)] for a separator of one character. *)
Fixpoint str_split (sep : N) (s : pystr) : list pystr :=
  match s with
  | [] => [[]]
  | c :: s' =>
      if N.eqb c sep then [] :: str_split sep s'
      else match str_split sep s' with
           | part :: parts => (c :: part) :: parts
           | [] => [[c]]
           end
  end.

(** [os.path.join(a, b)] for a relative [b] (POSIX). *)
Definition path_join (a b : pystr) : pystr :=
  if bool_decide (a = []) then b
  else if endswith (lit "/") a then a ++ b
  else a ++ lit "/" ++ b.

(** ** Python values and dictionaries

    The values the script meets in the dictionaries of the extraction
    library: [None], strings and integers. *)

Inductive pyval :=
| PNone
| PStr (s : pystr)
| PInt (n : Z).

#[global] Instance pyval_eq_dec : EqDecision pyval.
Proof. solve_decision. Defined.

(** Truth value of an object, as tested by [not x]. *)
Definition truthy (v : pyval) : bool :=
  match v with
  | PNone => false
  | PStr s => negb (bool_decide (s = []))
  | PInt n => negb (n =? 0)
  end.

(** [str(v)], as an f-string renders a value. *)
Definition py_str (v : pyval) : pystr :=
  match v with
  | PNone => lit "None"
  | PStr s => s
  | PInt n => lit (pretty n)
  end.

(** [repr(v)], used by [str(KeyError(v))].  Quotes inside the string
    are not escaped: the keys looked up by the script are plain
    literals. *)
Definition py_repr (v : pyval) : pystr :=
  match v with
  | PStr s => lit "'" ++ s ++ lit "'"
  | _ => py_str v
  end.

(** [type(v).__name__] *)
Definition type_name (v : pyval) : pystr :=
  match v with
  | PNone => lit "NoneType"
  | PStr _ => lit "str"
  | PInt _ => lit "int"
  end.

(** A dictionary with string keys. *)
Abbreviation dict := (gmap string pyval).

(** [d.get(k)] and [d.get(k, dflt)] *)
Definition get (d : dict) (k : string) (dflt : pyval) : pyval :=
  default dflt (d !! k).

(** ** Exceptions and results *)

Inductive exn :=
| KeyError (key : pyval)
| ZeroDivisionError
| OverflowError
| TypeError (msg : pystr)
| AttributeError (msg : pystr)
| Failure (msg : pystr).   (* any other subclass of Exception, raised by a collaborator *)

(** [str(e)] *)
Definition str_exn (e : exn) : pystr :=
  match e with
  | KeyError k => py_repr k
  | ZeroDivisionError => lit "division by zero"
  | OverflowError => lit "integer division result too large for a float"
  | TypeError msg => msg
  | AttributeError msg => msg
  | Failure msg => msg
  end.

(** The exception of [None.attr]. *)
Definition none_has_no (attr : string) : exn :=
  AttributeError (lit "'NoneType' object has no attribute '" ++ lit attr ++ lit "'").

Inductive result (A : Type) :=
| Ok (a : A)
| Raise (e : exn).
Arguments Ok {A} a.
Arguments Raise {A} e.

#[global] Instance result_ret : MRet result := fun A a => Ok a.
#[global] Instance result_bind : MBind result := fun A B f m =>
  match m with
  | Ok a => f a
  | Raise e => Raise e
  end.

(** [d[k]] *)
Definition getitem (d : dict) (k : string) : result pyval :=
  match d !! k with
  | Some v => Ok v
  | None => Raise (KeyError (PStr (lit k)))
  end.

(** ** Division and the format [.1%]

    [a / b] on integers is the double nearest to the quotient, and
    [format(x, '.1%')] is [x * 100], a double again, written with one
    digit after the point.  Doubles are kept as a mantissa and an
    exponent, so that every step is exact. *)

(** The integer nearest to [n / d], for [0 <= n] and [0 < d]; of two
    that are as near, the even one. *)
Definition round_half_even (n d : Z) : Z :=
  let q := n / d in
  let r := n mod d in
  if 2 * r <? d then q
  else if d <? 2 * r then q + 1
  else if Z.even q then q else q + 1.

(** The [k] with [2 ^ k <= n / d < 2 ^ (k + 1)], for [0 < n] and
    [0 < d]. *)
Definition log2_ratio (n d : Z) : Z :=
  let k := Z.log2 n - Z.log2 d in
  if 0 <=? k
  then (if d * 2 ^ k <=? n then k else k - 1)
  else (if d <=? n * 2 ^ (- k) then k else k - 1).

(** A double that is not negative, [mantissa * 2 ^ exponent]. *)
Record double := { mantissa : Z; exponent : Z }.

(** The double nearest to [n / d], for [0 <= n] and [0 < d]: a
    mantissa of 53 bits, no exponent below -1074, and of two doubles
    that are as near the one with the even mantissa.  What comes out
    may be [2 ^ 1024] or more, which no float holds; [overflows]
    tells. *)
Definition nearest_double (n d : Z) : double :=
  if n =? 0 then {| mantissa := 0; exponent := -1074 |}
  else
    let e := Z.max (log2_ratio n d - 52) (-1074) in
    {| mantissa := if 0 <=? e then round_half_even n (d * 2 ^ e)
                   else round_half_even (n * 2 ^ (- e)) d;
       exponent := e |}.

Definition overflows (x : double) : bool :=
  (971 <? exponent x) || ((exponent x =? 971) && (mantissa x =? 2 ^ 53)).

(** A double as a fraction. *)
Definition numerator (x : double) : Z := mantissa x * 2 ^ Z.max (exponent x) 0.
Definition denominator (x : double) : Z := 2 ^ Z.max (- exponent x) 0.

(** The number of tenths [format(x, '.1f')] writes: the nearest to
    [10 * x], the even one of two that are as near. *)
Definition tenths (x : double) : Z :=
  round_half_even (10 * numerator x) (denominator x).

(** [x * 100] for the quotient [x] of [a] and [b], without its sign. *)
Definition hundredfold (a b : Z) : double :=
  let q := nearest_double (Z.abs a) (Z.abs b) in
  nearest_double (100 * numerator q) (denominator q).

(** The sign of the quotient; the quotient of 0 and a negative integer
    is [-0.0]. *)
Definition quotient_sign (a b : Z) : string :=
  if xorb (a <? 0) (b <? 0) then "-" else "".

(** [f"{a / b:.1%}"] for integers [a] and [b <> 0] whose quotient a
    float holds: the sign, the tenths with a point before the last
    digit, and the percent sign. *)
Definition percent_string (a b : Z) : string :=
  let x := hundredfold a b in
  quotient_sign a b +:+
  (if overflows x then "inf%"
   else pretty (tenths x / 10) +:+ "." +:+ pretty (tenths x mod 10) +:+ "%").

(** [a / b] raises [OverflowError]. *)
Definition quotient_overflows (a b : Z) : bool :=
  overflows (nearest_double (Z.abs a) (Z.abs b)).

(** [f"{a / b:.1%}"] *)
Definition format_ratio (a b : pyval) : result pystr :=
  match a, b with
  | PInt x, PInt y =>
      if y =? 0 then Raise ZeroDivisionError
      else if quotient_overflows x y then Raise OverflowError
      else Ok (lit (percent_string x y))
  | _, _ => Raise (TypeError (lit "unsupported operand type(s) for /: '" ++ type_name a
                              ++ lit "' and '" ++ type_name b ++ lit "'"))
  end.

(** ** Metadata returned by the extraction library

    [info] is the dictionary returned by [extract_info]; its scalar
    entries are kept in [fields] and the entry under ['formats'], when
    there is one, in [formats]. *)

Record info := {
  fields : dict;
  formats : option (list dict)
}.

(** [info.get('formats', [])] *)
Definition get_formats (i : info) : list dict :=
  default [] (formats i).

(** ** The menu of formats (handle_youtube_link, "Prepare format options") *)

Definition glyph_video : pystr := [127916%N].
Definition glyph_audio : pystr := [128266%N].

Definition format_label (glyph note ext : pystr) : pystr :=
  glyph ++ lit " " ++ note ++ lit " (" ++ ext ++ lit ")".

(** One iteration of the [for f in info.get('formats', [])] loop; [acc]
    is the list [formats] built so far. *)
Definition format_step (acc : list (pystr * pyval)) (f : dict)
  : result (list (pystr * pyval)) :=
  if negb (truthy (get f "format_id" PNone)) || negb (truthy (get f "ext" PNone))
  then Ok acc
  else
    label ←
      (if bool_decide (get f "vcodec" PNone ≠ PStr (lit "none"))
       then
         ext ← getitem f "ext";
         Ok (format_label glyph_video
               (py_str (get f "format_note" (PStr (lit "Unknown")))) (py_str ext))
       else
         ext ← getitem f "ext";
         Ok (format_label glyph_audio
               (py_str (get f "format_note" (PStr (lit "Audio")))) (py_str ext)));
    fid ← getitem f "format_id";
    Ok (acc ++ [(label, fid)]).

Fixpoint format_loop (fs : list dict) (acc : list (pystr * pyval))
  : result (list (pystr * pyval)) :=
  match fs with
  | [] => Ok acc
  | f :: fs' => acc' ← format_step acc f; format_loop fs' acc'
  end.

(** A button of an inline keyboard: its label and its [callback_data]. *)
Record button := { label : pystr; callback_data : pyval }.

Abbreviation keyboard := (list (list button)).

(** [[InlineKeyboardButton(label, callback_data=format_id)]]: a row
    with one button. *)
Definition row_of (p : pystr * pyval) : list button :=
  [ {| label := p.1; callback_data := p.2 |} ].

(** [[row for label, format_id in formats[:15]]] *)
Definition format_keyboard (fmts : list (pystr * pyval)) : keyboard :=
  row_of <$> take 15 fmts.

(** The rendered menu of a probed [info]: the loop, then the keyboard. *)
Definition render_menu (i : info) : result keyboard :=
  fmts ← format_loop (get_formats i) [];
  Ok (format_keyboard fmts).

(** ** Sessions, events and the world outside the script *)

(** An entry of [user_context]: [{'link': text, 'info': info}]. *)
Record session := {
  link : pystr;
  sinfo : info
}.

(** What the script does to its collaborators, in the order it does it.
    [PutSession] and [DelSession] record the writes to [user_context],
    so that the trace also orders them against the calls. *)
Inductive event :=
| Answer (text : pystr)                              (* query.answer(text) *)
| ReplyText (text : pystr) (markdown : bool) (markup : option keyboard)
                                                     (* message.reply_text(...) *)
| EditText (text : pystr)                            (* query.message.edit_text(text) *)
| ReplyAudio (path : pystr) (title performer : pyval) (* query.message.reply_audio(...) *)
| ReplyVideo (path : pystr) (caption : pystr)        (* query.message.reply_video(...) *)
| Probe (url : pystr)                                (* extract_info(url, download=False) *)
| MkTemp                                             (* tempfile.TemporaryDirectory() *)
| Download (url format outtmpl : pystr)              (* extract_info(url, download=True) *)
| PrepareFilename (i : info)                         (* ydl.prepare_filename(info) *)
| OpenFile (path : pystr)                            (* open(path, 'rb') *)
| Cleanup (dir : pystr)                              (* exit of the TemporaryDirectory block *)
| LogError (msg : pystr)                             (* logger.error(msg) *)
| PutSession (user_id : Z)                           (* user_context[user_id] = ... *)
| DelSession (user_id : Z).                          (* del user_context[user_id] *)

(** The collaborators.  Each response may depend on everything that
    happened before the call (the trace so far).  A transport or file
    call answers [None] when it goes through and [Some e] when it
    raises [e]. *)
Record world := {
  (** the chat transport: answer, reply_text, edit_text, reply_audio, reply_video *)
  transport : list event -> event -> option exn;
  (** the extraction library, metadata only *)
  extract_probe : list event -> pystr -> result info;
  (** the extraction library, downloading: the progress dictionaries it
      reports to the hook, in order, and then its outcome *)
  extract_download : list event -> pystr -> pystr -> pystr -> list dict * result info;
  prepare_filename : list event -> info -> result pystr;
  (** the file system *)
  mkdtemp : list event -> result pystr;
  rmtree : list event -> pystr -> option exn;
  open_rb : list event -> pystr -> option exn;
  (** the username of the bot, [bot.username] *)
  bot_username : pystr
}.

Record state := {
  user_context : gmap Z session;
  trace : list event
}.

Definition record (e : event) (s : state) : state :=
  {| user_context := user_context s; trace := trace s ++ [e] |}.

(** ** The monad of handlers: state and exceptions *)

Definition M (A : Type) : Type := state -> result A * state.

#[global] Instance M_ret : MRet M := fun A a s => (Ok a, s).
#[global] Instance M_bind : MBind M := fun A B f m s =>
  match m s with
  | (Ok a, s') => f a s'
  | (Raise e, s') => (Raise e, s')
  end.

Definition lift {A} (r : result A) : M A := fun s => (r, s).

(** [try: body except Exception as e: handler(e)] *)
Definition try_except {A} (body : M A) (handler : exn -> M A) : M A := fun s =>
  match body s with
  | (Ok a, s') => (Ok a, s')
  | (Raise e, s') => handler e s'
  end.

Definition raised (o : option exn) : result unit :=
  match o with
  | None => Ok tt
  | Some e => Raise e
  end.

(** ['outtmpl': os.path.join(tmpdir, '%(id)s.%(ext)s')] *)
Definition outtmpl_in (tmpdir : pystr) : pystr := path_join tmpdir (lit "%(id)s.%(ext)s").

(** The caption of a video, [f"<check mark> {title}"]. *)
Definition caption_of (title : pyval) : pystr := [9989%N] ++ lit " " ++ py_str title.

Section Handlers.

Context (w : world).

(** An effect that cannot fail ([logger.error], a write to the map). *)
Definition emit (e : event) : M unit := fun s => (Ok tt, record e s).

(** A call to the chat transport. *)
Definition send (e : event) : M unit := fun s =>
  (raised (transport w (trace s) e), record e s).

Definition probe (url : pystr) : M info := fun s =>
  (extract_probe w (trace s) url, record (Probe url) s).

Definition filename (i : info) : M pystr := fun s =>
  (prepare_filename w (trace s) i, record (PrepareFilename i) s).

Definition open_file (path : pystr) : M unit := fun s =>
  (raised (open_rb w (trace s) path), record (OpenFile path) s).

(** [with tempfile.TemporaryDirectory() as tmpdir: body]: the directory
    is removed when the block is left, whether [body] returned or
    raised; an exception of the removal replaces the outcome of
    [body]. *)
Definition with_tempdir {A} (body : pystr -> M A) : M A := fun s =>
  match mkdtemp w (trace s) with
  | Raise e => (Raise e, record MkTemp s)
  | Ok tmpdir =>
      let '(r, s') := body tmpdir (record MkTemp s) in
      match rmtree w (trace s') tmpdir with
      | None => (r, record (Cleanup tmpdir) s')
      | Some e => (Raise e, record (Cleanup tmpdir) s')
      end
  end.

(** [user_id in user_context] *)
Definition has_session (user_id : Z) : M bool := fun s =>
  (Ok (bool_decide (is_Some (user_context s !! user_id))), s).

(** [user_context[user_id]] *)
Definition get_session (user_id : Z) : M session := fun s =>
  match user_context s !! user_id with
  | Some ss => (Ok ss, s)
  | None => (Raise (KeyError (PInt user_id)), s)
  end.

(** [user_context[user_id] = ss] *)
Definition put_session (user_id : Z) (ss : session) : M unit := fun s =>
  (Ok tt, {| user_context := <[user_id := ss]> (user_context s);
             trace := trace s ++ [PutSession user_id] |}).

(** [del user_context[user_id]] *)
Definition del_session (user_id : Z) : M unit := fun s =>
  match user_context s !! user_id with
  | Some _ => (Ok tt, {| user_context := delete user_id (user_context s);
                         trace := trace s ++ [DelSession user_id] |})
  | None => (Raise (KeyError (PInt user_id)), s)
  end.

(** *** start *)

Definition msg_welcome : pystr :=
  [128075%N] ++ lit " Welcome to YouTube Downloader Bot!" ++ [10%N; 10%N] ++
  [128073%N] ++ lit " *Send any YouTube link* to start" ++ [10%N; 10%N] ++
  [9889%N] ++ lit " *Works with all formats*: Video, Audio (MP3), 1080p, 4K & more".

Definition get_started : button :=
  {| label := [128640%N] ++ lit " Get Started"; callback_data := PStr (lit "start") |}.

Definition start : M unit :=
  send (ReplyText msg_welcome true (Some [[get_started]])).

(** *** format_selected *)

Definition msg_send_link_first : pystr :=
  [9888%N; 65039%N] ++ lit " Please send a YouTube link first!".

Definition msg_downloading : pystr :=
  [9203%N] ++ lit " Downloading your file... (this may take 10-60 seconds)".

Definition msg_progress : pystr := [9203%N] ++ lit " Downloading... ".

Definition msg_complete : pystr :=
  [9989%N] ++ lit " Download complete! (You can send another link)".

Definition msg_failed : pystr := [10060%N] ++ lit " Failed: ".

(** The progress hook, [lambda d: ... if d['status'] == 'downloading' else None]. *)
Definition progress_hook (d : dict) : M unit :=
  status ← lift (getitem d "status");
  if bool_decide (status = PStr (lit "downloading")) then
    pct ← lift (format_ratio (get d "downloaded_bytes" (PInt 0)) (get d "total_bytes" (PInt 1)));
    send (EditText (msg_progress ++ pct))
  else mret tt.

(** The library calling the hook on each dictionary it reports; an
    exception of the hook ends the download. *)
Fixpoint run_hooks (ds : list dict) : M unit :=
  match ds with
  | [] => mret tt
  | d :: ds' => progress_hook d ;; run_hooks ds'
  end.

(** [ydl.extract_info(url, download=True)] under
    [ydl_opts = {'format': format_id, 'outtmpl': outtmpl, ..., 'progress_hooks': [hook]}] *)
Definition download (url format_id outtmpl : pystr) : M info := fun s =>
  let '(chunks, r) := extract_download w (trace s) url format_id outtmpl in
  (run_hooks chunks ;; lift r) (record (Download url format_id outtmpl) s).

Definition audio_suffixes : list pystr :=
  [lit ".mp3"; lit ".m4a"; lit ".opus"; lit ".webm"].

(** "Send appropriate file type" *)
Definition send_file (file_path : pystr) (i : info) : M unit :=
  if endswith_any audio_suffixes file_path then
    open_file file_path ;;
    title ← lift (getitem (fields i) "title");
    performer ← lift (getitem (fields i) "uploader");
    send (ReplyAudio file_path title performer)
  else
    open_file file_path ;;
    title ← lift (getitem (fields i) "title");
    send (ReplyVideo file_path (caption_of title)).

(** The [except] block of [format_selected]. *)
Definition download_error (e : exn) : M unit :=
  emit (LogError (lit "Download error: " ++ str_exn e)) ;;
  send (EditText (msg_failed ++ take 100 (str_exn e))).

(** The body of the [with tempfile.TemporaryDirectory() as tmpdir] block
    of [format_selected]. *)
Definition fetch_into (user_id : Z) (format_id tmpdir : pystr) : M unit :=
  ss ← get_session user_id;
  i ← download (link ss) format_id (outtmpl_in tmpdir);
  file_path ← filename i;
  send_file file_path i.

(** The block itself. *)
Definition fetch_and_send (user_id : Z) (format_id : pystr) : M unit :=
  with_tempdir (fetch_into user_id format_id).

(** The part of [format_selected] below the session check. *)
Definition download_flow (user_id : Z) (format_id : pystr) : M unit :=
  send (EditText msg_downloading) ;;
  try_except
    (fetch_and_send user_id format_id ;;
     del_session user_id ;;
     send (EditText msg_complete))
    download_error.

Definition format_selected (user_id : Z) (format_id : pystr) : M unit :=
  present ← has_session user_id;
  if negb present then send (Answer msg_send_link_first)
  else download_flow user_id format_id.

(** *** handle_youtube_link *)

Definition msg_invalid_link : pystr :=
  [9888%N; 65039%N] ++ lit " Please send a valid YouTube link (youtube.com or youtu.be)".

Definition msg_analyzing : pystr :=
  [128269%N] ++ lit " Analyzing video formats... (10-30 seconds)".

Definition msg_select (title : pyval) : pystr :=
  [9989%N] ++ lit " *" ++ py_str title ++ lit "*" ++ [10%N; 10%N] ++
  [127919%N] ++ lit " *Select your format:*".

Definition msg_no_formats : pystr := [10060%N] ++ lit " Failed to get formats: ".

(** "Validate YouTube link" *)
Definition is_youtube_link (text : pystr) : bool :=
  contains (lit "youtube.com") text || contains (lit "youtu.be") text.

(** The [except] block of [handle_youtube_link]. *)
Definition format_error (e : exn) : M unit :=
  emit (LogError (lit "Format error: " ++ str_exn e)) ;;
  send (ReplyText (msg_no_formats ++ take 100 (str_exn e)) false None).

(** The part of [handle_youtube_link] below the validation. *)
Definition probe_flow (user_id : Z) (text : pystr) : M unit :=
  send (ReplyText msg_analyzing false None) ;;
  try_except
    (i ← probe text;
     put_session user_id {| link := text; sinfo := i |} ;;
     kb ← lift (render_menu i);
     title ← lift (getitem (fields i) "title");
     send (ReplyText (msg_select title) true (Some kb)))
    format_error.

Definition handle_youtube_link (user_id : Z) (message_text : pystr) : M unit :=
  let text := strip message_text in
  if negb (is_youtube_link text) then send (ReplyText msg_invalid_link false None)
  else probe_flow user_id text.

(** *** main: the dispatcher's routing *)

(** An update delivered by the transport: a new message, an edited
    message, a channel post (new or edited), a button press, or an
    update of another kind (an inline query, a poll, a change of chat
    member, ...).  For a message, [text] is its text, empty when it has
    none; [command] is the length of its first entity when that is a
    [bot_command] at offset 0; [has_link] says whether it carries a
    [url] or [text_link] entity.  A message and an edited message have
    a sender; a channel post has none. *)
Inductive update :=
| Message (user_id : Z) (text : pystr) (command : option nat) (has_link : bool)
| EditedMessage (user_id : Z) (text : pystr) (command : option nat) (has_link : bool)
| ChannelPost (text : pystr) (command : option nat) (has_link : bool)
| CallbackQuery (user_id : Z) (data : pystr)
| OtherUpdate.

(** What [CommandHandler("start", start)] accepts in a message or an
    edited message: the command is [text[1:length]], split at ['@'],
    with the username of the bot for a missing second part; the first
    part is [start] in any case of the letters, and the second the
    username of this bot, in any case. *)
Definition is_start_command (text : pystr) (command : option nat) : bool :=
  match command with
  | Some n =>
      let parts := str_split 64 (take (n - 1) (drop 1 text)) ++ [bot_username w] in
      bool_decide (lower <$> parts !! 0%nat = Some (lit "start")) &&
      bool_decide (lower <$> parts !! 1%nat = Some (lower (bot_username w)))
  | None => false
  end.

(** What the filter of the [MessageHandler] accepts,
    [Filters.text & ~Filters.command & (Filters.entity('url') | Filters.entity('text_link'))],
    in a message, an edited message or a channel post. *)
Definition is_link_message (text : pystr) (command : option nat) (has_link : bool) : bool :=
  negb (bool_decide (text = [])) && negb (bool_decide (is_Some command)) && has_link.

(** The first handler whose filter accepts the update runs; an update
    no filter accepts is dropped.  [update.message] is the message of
    a new message and [None] for every other update, and
    [update.effective_user] is [None] for a channel post: [start]
    (line 24) and [handle_youtube_link] (lines 89 and 90) are left
    with an [AttributeError] when they are given an edited message or a
    channel post. *)
Definition dispatch (u : update) : M unit :=
  match u with
  | Message user_id text command has_link =>
      if is_start_command text command then start
      else if is_link_message text command has_link then handle_youtube_link user_id text
      else mret tt
  | EditedMessage user_id text command has_link =>
      if is_start_command text command then lift (Raise (none_has_no "reply_text"))
      else if is_link_message text command has_link then lift (Raise (none_has_no "text"))
      else mret tt
  | ChannelPost text command has_link =>
      if is_link_message text command has_link then lift (Raise (none_has_no "id"))
      else mret tt
  | CallbackQuery user_id data => format_selected user_id data
  | OtherUpdate => mret tt
  end.

End Handlers.

(** ** The menu as the specification words it

    A descriptor is selectable when it has a format identifier and an
    extension (present and not empty); a selectable descriptor becomes a
    row with one button. *)

Definition selectable (f : dict) : bool :=
  truthy (get f "format_id" PNone) && truthy (get f "ext" PNone).

Definition is_video (f : dict) : bool :=
  bool_decide (get f "vcodec" PNone ≠ PStr (lit "none")).

Definition entry_of (f : dict) : pystr * pyval :=
  (if is_video f
   then format_label glyph_video
          (py_str (get f "format_note" (PStr (lit "Unknown")))) (py_str (get f "ext" PNone))
   else format_label glyph_audio
          (py_str (get f "format_note" (PStr (lit "Audio")))) (py_str (get f "ext" PNone)),
   get f "format_id" PNone).

Definition menu_of (fs : list dict) : list (pystr * pyval) :=
  take 15 (entry_of <$> filter (fun f => selectable f = true) fs).



(** ** Observing a run *)

(** The events a handler adds to the trace when run from [s]. *)
Definition events_of {A} (m : M A) (s : state) : list event :=
  drop (length (trace s)) (trace (m s).2).

(** The session map a handler leaves. *)
Definition sessions_after {A} (m : M A) (s : state) : gmap Z session :=
  user_context (m s).2.

(** How the handler ends: [Ok] when it returns, [Raise e] when [e]
    leaves it. *)
Definition outcome {A} (m : M A) (s : state) : result A := (m s).1.

Definition is_download (e : event) : bool :=
  match e with Download _ _ _ => true | _ => false end.

Definition is_mktemp (e : event) : bool :=
  match e with MkTemp => true | _ => false end.

Definition is_probe (e : event) : bool :=
  match e with Probe _ => true | _ => false end.

(** The message that carries the file at [path]: audio or video by the
    suffix test, with what it takes from [i]. *)
Definition file_message (path : pystr) (i : info) : option event :=
  if endswith_any audio_suffixes path then
    title ← fields i !! "title";
    performer ← fields i !! "uploader";
    Some (ReplyAudio path title performer)
  else
    title ← fields i !! "title";
    Some (ReplyVideo path (caption_of title)).



(** ** Worlds, metadata and states used in the examples *)

Definition fmt22 : dict :=
  <["format_id" := PStr (lit "22")]> (<["ext" := PStr (lit "mp4")]>
  (<["vcodec" := PStr (lit "avc1.64001F")]> (<["format_note" := PStr (lit "720p")]> ∅))).

Definition fmt251 : dict :=
  <["format_id" := PStr (lit "251")]> (<["ext" := PStr (lit "webm")]>
  (<["vcodec" := PStr (lit "none")]> ∅)).

(** A storyboard entry without an extension. *)
Definition fmt_storyboard : dict := <["format_id" := PStr (lit "sb0")]> ∅.

Definition video_info : info :=
  {| fields := <["title" := PStr (lit "snake_case demo")]>
               (<["uploader" := PStr (lit "someone")]> (<["id" := PStr (lit "abc123")]> ∅));
     formats := Some [fmt22; fmt_storyboard; fmt251] |}.

(** Metadata without a title. *)
Definition untitled_info : info :=
  {| fields := <["id" := PStr (lit "abc123")]> ∅; formats := Some [fmt22] |}.

Definition chunk (status : string) (downloaded total : Z) : dict :=
  <["status" := PStr (lit status)]> (<["downloaded_bytes" := PInt downloaded]>
  (<["total_bytes" := PInt total]> ∅)).

(** A world given by its transport, the outcome of the probe and the
    outcome of the download; the file system always obliges. *)
Definition scripted (tr : list event -> event -> option exn)
    (probed : result info) (downloaded : list dict * result info) : world :=
  {| transport := tr;
     extract_probe := fun _ _ => probed;
     extract_download := fun _ _ _ _ => downloaded;
     prepare_filename := fun _ _ => Ok (lit "/tmp/tmpk3v9/abc123.mp4");
     mkdtemp := fun _ => Ok (lit "/tmp/tmpk3v9");
     rmtree := fun _ _ => None;
     open_rb := fun _ _ => None;
     bot_username := lit "JossYT_bot" |}.

Definition accepts_all : list event -> event -> option exn := fun _ _ => None.

Definition timed_out : exn := Failure (lit "Timed out").

(** The transport is unreachable. *)
Definition offline : world :=
  scripted (fun _ _ => Some timed_out) (Ok video_info) ([], Ok video_info).

(** Everything works. *)
Definition sunny : world :=
  scripted accepts_all (Ok video_info)
    ([chunk "downloading" 512 1024; chunk "finished" 1024 1024], Ok video_info).

(** The extraction library does not know the site. *)
Definition unsupported : world :=
  scripted accepts_all (Raise (Failure (lit "ERROR: Unsupported URL")))
    ([], Raise (Failure (lit "ERROR: Unsupported URL"))).

(** The probe returns metadata without a title. *)
Definition untitled : world :=
  scripted accepts_all (Ok untitled_info) ([], Ok untitled_info).

(** The transport refuses the menu: the title does not parse as Markdown. *)
Definition strict_markdown : world :=
  scripted (fun _ e => match e with
                       | ReplyText _ true (Some _) =>
                           Some (Failure (lit "Can't parse entities"))
                       | _ => None
                       end)
    (Ok video_info) ([], Ok video_info).

(** The transport refuses the last edit of a download. *)
Definition late_timeout : world :=
  scripted (fun _ e => match e with
                       | EditText text =>
                           if bool_decide (text = msg_complete) then Some timed_out else None
                       | _ => None
                       end)
    (Ok video_info) ([], Ok video_info).


Definition idle : state := {| user_context := ∅; trace := [] |}.

Definition a_link : pystr := lit "check this out https://youtu.be/abc123".

(** User 7 has sent [a_link] and was shown the menu. *)
Definition awaiting : state :=
  {| user_context := {[ 7 := {| link := a_link; sinfo := video_info |} ]}; trace := [] |}.

(** ** The order of a download's side effects *)

(** The step of [format_selected] an event belongs to: 0 the first
    edit, 1 the temporary directory, 2 the download call, 3 an edit of
    the progress hook, 4 the file name, 5 opening the file, 6 sending
    it, 7 leaving the temporary directory, 8 deleting the session, 9
    the last edit; 10 and 11 are the two calls of the [except] block. *)
Definition stage (e : event) : nat :=
  match e with
  | EditText text =>
      if bool_decide (text = msg_downloading) then 0
      else if startswith msg_progress text then 3
      else if bool_decide (text = msg_complete) then 9
      else if startswith msg_failed text then 11
      else 12
  | MkTemp => 1
  | Download _ _ _ => 2
  | PrepareFilename _ => 4
  | OpenFile _ => 5
  | ReplyAudio _ _ _ | ReplyVideo _ _ => 6
  | Cleanup _ => 7
  | DelSession _ => 8
  | LogError _ => 10
  | _ => 12
  end%nat.

(** Only the progress hook may run more than once. *)
Definition next_stage (n : nat) : nat := if (n =? 3)%nat then 3%nat else S n.

(** [in_order lo evs]: the events go through the steps in increasing
    order, from step [lo] on, none of them twice except step 3. *)
Fixpoint in_order (lo : nat) (evs : list event) : bool :=
  match evs with
  | [] => true
  | e :: evs' => (lo <=? stage e)%nat && (stage e <=? 11)%nat && in_order (next_stage (stage e)) evs'
  end.

(** The edit the progress hook makes for a reported dictionary, if any. *)
Definition progress_edit (d : dict) : list event :=
  if bool_decide (d !! "status" = Some (PStr (lit "downloading"))) then
    match format_ratio (get d "downloaded_bytes" (PInt 0)) (get d "total_bytes" (PInt 1)) with
    | Ok pct => [EditText (msg_progress ++ pct)]
    | Raise _ => []
    end
  else [].

(** A dictionary whose status is ['downloading'] gets its edit. *)
Definition reported (d : dict) : Prop :=
  d !! "status" = Some (PStr (lit "downloading")) ->
  exists pct, progress_edit d = [EditText (msg_progress ++ pct)].

(** ** The extension of a path

    The extension of a path as [os.path.splitext] gives it: the last
    dot of the file name and what follows it, when the name has a
    character other than a dot before that dot; nothing otherwise.
    The file name is what follows the last ['/'].  The two functions
    below read the path backwards. *)

(** The file name of a path, both given last character first. *)
Fixpoint name_rev (r : pystr) : pystr :=
  match r with
  | [] => []
  | c :: r' => if (c =? 47)%N then [] else c :: name_rev r'
  end.

(** A file name, given last character first, cut at its last dot: what
    is before the dot, still last character first, and the dot with
    what follows it; [acc] collects what has been passed. *)
Fixpoint cut_rev (r acc : pystr) : option (pystr * pystr) :=
  match r with
  | [] => None
  | c :: r' => if (c =? 46)%N then Some (r', c :: acc) else cut_rev r' (c :: acc)
  end.

(** [os.path.splitext(path)[1]] *)
Definition extension (path : pystr) : pystr :=
  match cut_rev (name_rev (rev path)) [] with
  | Some (stem, ext) => if forallb (N.eqb 46) stem then [] else ext
  | None => []
  end.

(** ** Messages the theorems name *)

(** The first message of [handle_youtube_link] for a recognised link. *)
Abbreviation notice := (ReplyText msg_analyzing false None).

(** The first and the last edit of a download. *)
Abbreviation first_edit := (EditText msg_downloading).
Abbreviation last_edit := (EditText msg_complete).

(** The menu message of a probed [i] whose title is [t]. *)
Definition menu_message (i : info) (t : pyval) : event :=
  ReplyText (msg_select t) true (Some (row_of <$> menu_of (get_formats i))).

Definition another_link : pystr := lit "https://www.youtube.com/watch?v=xyz789".

(** ** The process: updates handled one after the other *)

(** The user an update comes from, [update.effective_user]. *)
Definition sender (u : update) : option Z :=
  match u with
  | Message user_id _ _ _ | EditedMessage user_id _ _ _ | CallbackQuery user_id _ => Some user_id
  | ChannelPost _ _ _ | OtherUpdate => None
  end.

(** [main]: the updater polls and the dispatcher handles the updates
    in the order they arrive; when an exception leaves a handler the
    dispatcher logs it and goes on with the next update.  [serve]
    gives the state after a list of updates. *)
Fixpoint serve (w : world) (us : list update) (s : state) : state :=
  match us with
  | [] => s
  | u :: us' => serve w us' (dispatch w u s).2
  end.

(** The progress dictionary of a download that reports no size. *)
Definition stalled : world :=
  scripted accepts_all (Ok video_info)
    ([chunk "downloading" 0 0; chunk "finished" 1024 1024], Ok video_info).

(** Metadata whose descriptors all lack an extension. *)
Definition bare_info : info :=
  {| fields := <["title" := PStr (lit "live stream")]> ∅;
     formats := Some [fmt_storyboard] |}.

Definition bare : world := scripted accepts_all (Ok bare_info) ([], Ok bare_info).

(** Every logged error is followed by its report to the user, the first
    100 characters of the same text, and the report is the last thing
    the handler does. *)
Fixpoint errors_reported (evs : list event) : Prop :=
  match evs with
  | [] => True
  | LogError msg :: rest =>
      exists m,
        (msg = lit "Download error: " ++ m /\
         rest = [EditText (msg_failed ++ take 100 m)]) \/
        (msg = lit "Format error: " ++ m /\
         rest = [ReplyText (msg_no_formats ++ take 100 m) false None])
  | _ :: rest => errors_reported rest
  end.

(** What holds of the sessions and of the trace after any number of
    updates: a session holds a stripped, recognised link that was
    probed, and a download call comes after a probe of its link. *)
Definition well_formed (s : state) : Prop :=
  (forall uid ss, user_context s !! uid = Some ss ->
     is_youtube_link (link ss) = true /\ strip (link ss) = link ss /\
     Probe (link ss) ∈ trace s) /\
  (forall pre url fmt out post,
     trace s = pre ++ Download url fmt out :: post -> Probe url ∈ pre).

(** A text made of the characters [strip] removes. *)
Abbreviation blank := (Forall (fun c => isspace c = true)).

(** * Properties *)

Lemma truthy_get_Some (f : dict) k :
  truthy (get f k PNone) = true -> exists v, f !! k = Some v /\ truthy v = true.
Proof.
  unfold get. destruct (f !! k) as [v|] eqn:E; simpl; [eauto | discriminate].
Qed.

Lemma getitem_get (f : dict) k v : f !! k = Some v -> getitem f k = Ok v /\ get f k PNone = v.
Proof. intros E. unfold getitem, get. rewrite E. auto. Qed.

Lemma format_step_spec acc f :
  format_step acc f = Ok (if selectable f then acc ++ [entry_of f] else acc).
Proof.
  unfold format_step, selectable.
  destruct (truthy (get f "format_id" PNone)) eqn:Hid; simpl; [|reflexivity].
  destruct (truthy (get f "ext" PNone)) eqn:Hext; simpl; [|reflexivity].
  apply truthy_get_Some in Hid as (fid & Eid & _).
  apply truthy_get_Some in Hext as (ext & Eext & _).
  destruct (getitem_get _ _ _ Eid) as [Gid Gid'].
  destruct (getitem_get _ _ _ Eext) as [Gext Gext'].
  unfold entry_of, is_video. rewrite Gid', Gext'.
  destruct (bool_decide _); rewrite Gext; simpl; rewrite Gid; reflexivity.
Qed.

Lemma format_loop_spec fs acc :
  format_loop fs acc = Ok (acc ++ (entry_of <$> filter (fun f => selectable f = true) fs)).
Proof.
  revert acc. induction fs as [|f fs IH]; intros acc; simpl.
  - by rewrite app_nil_r.
  - rewrite format_step_spec. simpl. rewrite IH.
    rewrite filter_cons. destruct (selectable f) eqn:E.
    + rewrite decide_True by done. by rewrite fmap_cons, <- app_assoc.
    + rewrite decide_False by (by intros ?). done.
Qed.

Lemma render_menu_spec i :
  render_menu i = Ok (row_of <$> menu_of (get_formats i)).
Proof.
  unfold render_menu. rewrite format_loop_spec. reflexivity.
Qed.





Example menu_two_formats :
  render_menu {| fields := ∅; formats := Some [fmt22; fmt_storyboard; fmt251] |} =
  Ok [[ {| label := [127916%N] ++ lit " 720p (mp4)"; callback_data := PStr (lit "22") |} ];
      [ {| label := [128266%N] ++ lit " Audio (webm)"; callback_data := PStr (lit "251") |} ]].
Proof. vm_compute. reflexivity. Qed.

Lemma send_run w e s :
  send w e s = (raised (transport w (trace s) e), record e s).
Proof. reflexivity. Qed.

Lemma format_selected_without_session w uid fid s :
  user_context s !! uid = None ->
  format_selected w uid fid s =
    (raised (transport w (trace s) (Answer msg_send_link_first)),
     record (Answer msg_send_link_first) s).
Proof.
  intros Hno. unfold format_selected, mbind, M_bind, has_session. rewrite Hno.
  rewrite bool_decide_eq_false_2 by (intros [? ?]; discriminate). reflexivity.
Qed.

(** C3: a button press from a user who has no entry in [user_context]
    makes one call, [query.answer] with the "send a link first"
    warning, and the handler ends as that call ends: no download is
    invoked, no temporary directory is made, and the session map is as
    it was. *)
Theorem no_session_no_download (w : world) (user_id : Z) (format_id : pystr) (s : state) :
  user_context s !! user_id = None ->
  let h := format_selected w user_id format_id in
  events_of h s = [Answer msg_send_link_first] /\
  sessions_after h s = user_context s /\
  outcome h s = raised (transport w (trace s) (Answer msg_send_link_first)) /\
  Forall (fun e => is_download e = false /\ is_mktemp e = false) (events_of h s).
Proof.
  intros Hno h. subst h. unfold events_of, sessions_after, outcome.
  rewrite (format_selected_without_session _ _ _ _ Hno). simpl.
  rewrite drop_app_length. repeat split; auto.
Qed.

Lemma no_session_no_download_witness :
  events_of (format_selected sunny 7 (lit "22")) idle = [Answer msg_send_link_first] /\
  sessions_after (format_selected sunny 7 (lit "22")) idle = ∅.
Proof.
  destruct (no_session_no_download sunny 7 (lit "22") idle eq_refl) as (H1 & H2 & _).
  split; [exact H1 | exact H2].
Defined.

(** *** handle_youtube_link, case by case *)

Lemma handle_rejects w uid text s :
  is_youtube_link (strip text) = false ->
  handle_youtube_link w uid text s =
    (raised (transport w (trace s) (ReplyText msg_invalid_link false None)),
     record (ReplyText msg_invalid_link false None) s).
Proof. intros H. unfold handle_youtube_link. rewrite H. reflexivity. Qed.

Lemma handle_accepts w uid text s :
  is_youtube_link (strip text) = true ->
  handle_youtube_link w uid text s = probe_flow w uid (strip text) s.
Proof. intros H. unfold handle_youtube_link. rewrite H. reflexivity. Qed.

Lemma probe_flow_notice_fails w uid text s e :
  transport w (trace s) (ReplyText msg_analyzing false None) = Some e ->
  probe_flow w uid text s = (Raise e, record (ReplyText msg_analyzing false None) s).
Proof.
  intros H. unfold probe_flow, mbind, M_bind. rewrite send_run, H. reflexivity.
Qed.

Lemma format_error_run w e s :
  format_error w e s =
    (raised (transport w (trace s ++ [LogError (lit "Format error: " ++ str_exn e)])
               (ReplyText (msg_no_formats ++ take 100 (str_exn e)) false None)),
     {| user_context := user_context s;
        trace := trace s ++ [LogError (lit "Format error: " ++ str_exn e);
                             ReplyText (msg_no_formats ++ take 100 (str_exn e)) false None] |}).
Proof.
  unfold format_error, mbind, M_bind, emit, send, record. simpl.
  by rewrite <- app_assoc.
Qed.

Lemma probe_flow_probe_fails w uid text s e :
  transport w (trace s) (ReplyText msg_analyzing false None) = None ->
  extract_probe w (trace s ++ [ReplyText msg_analyzing false None]) text = Raise e ->
  probe_flow w uid text s =
    format_error w e
      {| user_context := user_context s;
         trace := trace s ++ [ReplyText msg_analyzing false None; Probe text] |}.
Proof.
  intros H1 H2. unfold probe_flow, mbind at 1, M_bind at 1. rewrite send_run, H1. simpl.
  unfold try_except, mbind at 1, M_bind at 1, probe. simpl. rewrite H2.
  unfold format_error, record; simpl. by rewrite <- app_assoc.
Qed.

Lemma probe_flow_probe_ok w uid text s i :
  transport w (trace s) (ReplyText msg_analyzing false None) = None ->
  extract_probe w (trace s ++ [ReplyText msg_analyzing false None]) text = Ok i ->
  probe_flow w uid text s =
    let s3 := {| user_context := <[uid := {| link := text; sinfo := i |}]> (user_context s);
                 trace := trace s ++ [ReplyText msg_analyzing false None; Probe text;
                                      PutSession uid] |} in
    match fields i !! "title" with
    | None => format_error w (KeyError (PStr (lit "title"))) s3
    | Some t =>
        match transport w (trace s3) (menu_message i t) with
        | None => (Ok tt, record (menu_message i t) s3)
        | Some e => format_error w e (record (menu_message i t) s3)
        end
    end.
Proof.
  intros H1 H2. unfold probe_flow, mbind at 1, M_bind at 1. rewrite send_run, H1. simpl.
  unfold try_except, mbind at 1, M_bind at 1, probe. simpl. rewrite H2.
  unfold mbind at 1, M_bind at 1, put_session. simpl.
  unfold mbind at 1, M_bind at 1, lift at 1. rewrite render_menu_spec.
  unfold mbind at 1, M_bind at 1, lift at 1, getitem.
  rewrite <- !app_assoc. simpl.
  destruct (fields i !! "title") as [t|]; [|reflexivity].
  rewrite send_run. simpl. unfold menu_message.
  destruct (transport w (trace s ++ _) _); reflexivity.
Qed.

(** *** Suffix tests and the extension *)

Lemma startswith_spec (p s : pystr) :
  startswith p s = true <-> exists post, s = p ++ post.
Proof.
  revert s. induction p as [|a p IH]; intros s; cbn -[N.eqb].
  - split; [intros _; by exists s|done].
  - destruct s as [|b s]; [split; [done|by intros [? [=]]]|].
    destruct (N.eqb_spec a b) as [<-|Hab].
    + rewrite IH. split; intros [post E]; exists post; [by rewrite E|by injection E].
    + split; [done|]. intros [post [= E _]]. done.
Qed.












(** *** Division and the percentage *)

Lemma round_half_even_spec (n d : Z) :
  0 <= n -> 0 < d ->
  0 <= round_half_even n d /\ - d <= 2 * (round_half_even n d * d - n) <= d.
Proof.
  intros Hn Hd. unfold round_half_even.
  pose proof (Z.div_mod n d ltac:(lia)) as E.
  pose proof (Z.mod_pos_bound n d Hd) as Hr.
  pose proof (Z.div_pos n d Hn Hd) as Hq.
  destruct (Z.ltb_spec (2 * (n mod d)) d); [nia|].
  destruct (Z.ltb_spec d (2 * (n mod d))); [nia|].
  destruct (Z.even (n / d)); nia.
Qed.

Lemma log2_ratio_spec (n d : Z) :
  0 < n -> 0 < d ->
  let k := log2_ratio n d in
  d * 2 ^ Z.max k 0 <= n * 2 ^ Z.max (- k) 0 < 2 * (d * 2 ^ Z.max k 0).
Proof.
  intros Hn Hd. unfold log2_ratio.
  pose proof (Z.log2_spec n Hn) as Ln. pose proof (Z.log2_spec d Hd) as Ld.
  pose proof (Z.log2_nonneg n) as Nn. pose proof (Z.log2_nonneg d) as Nd.
  rewrite Z.pow_succ_r in Ln, Ld by done.
  set (ln := Z.log2 n) in *. set (ld := Z.log2 d) in *.
  assert (P1 : 0 < 2 ^ ln) by (by apply Z.pow_pos_nonneg).
  assert (P2 : 0 < 2 ^ ld) by (by apply Z.pow_pos_nonneg).
  destruct (Z.leb_spec 0 (ln - ld)) as [Hk|Hk].
  - assert (E : 2 ^ ln = 2 ^ ld * 2 ^ (ln - ld)).
    { rewrite <- Z.pow_add_r by lia. f_equal. lia. }
    assert (P3 : 0 < 2 ^ (ln - ld)) by (by apply Z.pow_pos_nonneg).
    destruct (Z.leb_spec (d * 2 ^ (ln - ld)) n) as [Hc|Hc]; cbv zeta.
    + rewrite Z.max_l, Z.max_r by lia. change (2 ^ 0) with 1. nia.
    + destruct (Z.eq_dec (ln - ld) 0) as [E0|E0].
      * rewrite E0 in *. change (2 ^ 0) with 1 in *.
        rewrite Z.max_r, Z.max_l by lia. change (2 ^ 0) with 1.
        change (- (0 - 1)) with 1. change (2 ^ 1) with 2. nia.
      * rewrite Z.max_l, Z.max_r by lia. change (2 ^ 0) with 1.
        assert (E1 : 2 ^ (ln - ld) = 2 * 2 ^ (ln - ld - 1)).
        { rewrite <- Z.pow_succ_r by lia. f_equal. lia. }
        assert (P4 : 0 < 2 ^ (ln - ld - 1)) by (apply Z.pow_pos_nonneg; lia).
        nia.
  - assert (E : 2 ^ ld = 2 ^ ln * 2 ^ (- (ln - ld))).
    { rewrite <- Z.pow_add_r by lia. f_equal. lia. }
    assert (P3 : 0 < 2 ^ (- (ln - ld))) by (apply Z.pow_pos_nonneg; lia).
    destruct (Z.leb_spec d (n * 2 ^ (- (ln - ld)))) as [Hc|Hc]; cbv zeta.
    + rewrite Z.max_r, Z.max_l by lia. change (2 ^ 0) with 1. nia.
    + rewrite Z.max_r, Z.max_l by lia. change (2 ^ 0) with 1.
      assert (E1 : 2 ^ (- (ln - ld - 1)) = 2 * 2 ^ (- (ln - ld))).
      { rewrite <- Z.pow_succ_r by lia. f_equal. lia. }
      nia.
Qed.

(** A quotient below [2 ^ (K + 1)], for [K] up to 51, goes to a double
    whose exponent is [K - 52] at most, and the mantissa is the nearest
    integer on that scale. *)
Lemma nearest_double_fine (n d K : Z) :
  0 <= n -> 0 < d -> 0 <= K <= 51 -> n < d * 2 ^ (K + 1) ->
  let x := nearest_double n d in
  -1074 <= exponent x <= K - 52 /\ 0 <= mantissa x /\
  - d <= 2 * (mantissa x * d - n * 2 ^ (- exponent x)) <= d.
Proof.
  intros Hn Hd HK Hlt. unfold nearest_double.
  destruct (Z.eqb_spec n 0) as [->|Hn0]; cbn [mantissa exponent]; [lia|].
  pose proof (log2_ratio_spec n d ltac:(lia) Hd) as Hk. cbv zeta in Hk.
  set (k := log2_ratio n d) in *.
  assert (Hle : k <= K).
  { destruct (Z.le_gt_cases k K) as [|Hgt]; [done|]. exfalso.
    rewrite Z.max_l, Z.max_r in Hk by lia. change (2 ^ 0) with 1 in Hk.
    assert (2 ^ (K + 1) <= 2 ^ k) by (apply Z.pow_le_mono_r; lia). nia. }
  set (e := Z.max (k - 52) (-1074)).
  assert (He : -1074 <= e <= K - 52) by lia.
  destruct (Z.leb_spec 0 e) as [|_]; [lia|].
  assert (0 < 2 ^ (- e)) by (apply Z.pow_pos_nonneg; lia).
  destruct (round_half_even_spec (n * 2 ^ (- e)) d ltac:(nia) Hd) as [H1 H2].
  auto.
Qed.

(** Rounding between [2 ^ 52] and [2 ^ 53]: the top is reached from
    half a unit below it on. *)
Lemma round_half_even_top (n D : Z) :
  0 < D -> 4503599627370496 * D <= n < 9007199254740992 * D ->
  round_half_even n D = 9007199254740992 <-> 18014398509481983 * D <= 2 * n.
Proof.
  intros HD Hn. unfold round_half_even.
  pose proof (Z.div_mod n D ltac:(lia)) as Edm.
  pose proof (Z.mod_pos_bound n D HD) as Hr.
  set (q := n / D) in *. set (r := n mod D) in *.
  assert (Hq : 4503599627370496 <= q <= 9007199254740991) by nia.
  destruct (Z.ltb_spec (2 * r) D); [split; intros; nia|].
  destruct (Z.ltb_spec D (2 * r)); [split; intros; nia|].
  destruct (Z.eq_dec q 9007199254740991) as [Eq|Nq].
  - rewrite Eq. change (Z.even 9007199254740991) with false. split; intros; nia.
  - destruct (Z.even q); split; intros; nia.
Qed.

(** [a / b] raises [OverflowError] exactly when the quotient is nearer
    to [2 ^ 1024] than to the largest float, [2 ^ 1024 - 2 ^ 971], or
    as near. *)
Lemma quotient_overflows_spec (a b : Z) :
  b <> 0 ->
  quotient_overflows a b = true <-> (2 ^ 1024 - 2 ^ 970) * Z.abs b <= Z.abs a.
Proof.
  intros Hb. unfold quotient_overflows, nearest_double, overflows.
  assert (Hd : 0 < Z.abs b) by lia. pose proof (Z.abs_nonneg a) as Hn.
  set (n := Z.abs a) in *. set (d := Z.abs b) in *.
  assert (E1024 : 2 ^ 1024 = 18014398509481984 * 2 ^ 970) by done.
  assert (E1023 : 2 ^ 1023 = 9007199254740992 * 2 ^ 970) by done.
  assert (E971 : 2 ^ 971 = 2 * 2 ^ 970) by done.
  assert (HP : 0 < 2 ^ 970) by done.
  rewrite E1024. change (2 ^ 53) with 9007199254740992.
  set (P := 2 ^ 970) in *. clearbody P.
  destruct (Z.eqb_spec n 0) as [E0|Hn0]; cbn [mantissa exponent].
  { split; [done|]. rewrite E0. nia. }
  pose proof (log2_ratio_spec n d ltac:(lia) Hd) as Hk. cbv zeta in Hk.
  set (k := log2_ratio n d) in *.
  destruct (Z.lt_trichotomy k 1023) as [Hlt|[Heq|Hgt]].
  - (* the quotient is below 2 ^ 1023 *)
    rewrite (proj2 (Z.ltb_ge 971 _)) by lia.
    rewrite (proj2 (Z.eqb_neq _ 971)) by lia.
    split; [done|]. intros H. exfalso.
    destruct (Z.le_gt_cases 0 k).
    + rewrite Z.max_l, Z.max_r in Hk by lia. change (2 ^ 0) with 1 in Hk.
      assert (Hp : 2 * 2 ^ k <= 2 ^ 1023).
      { rewrite <- Z.pow_succ_r by done. apply Z.pow_le_mono_r; lia. }
      rewrite E1023 in Hp. set (Q := 2 ^ k) in *. clearbody Q. nia.
    + rewrite Z.max_r, Z.max_l in Hk by lia. change (2 ^ 0) with 1 in Hk.
      assert (0 < 2 ^ (- k)) by (apply Z.pow_pos_nonneg; lia).
      set (Q := 2 ^ (- k)) in *. clearbody Q. nia.
  - (* the quotient is between 2 ^ 1023 and 2 ^ 1024 *)
    rewrite Z.max_l, Z.max_r in Hk by lia. change (2 ^ 0) with 1 in Hk.
    rewrite Heq in *. change (Z.max (1023 - 52) (-1074)) with 971.
    change (971 <? 971) with false. change (971 =? 971) with true.
    change (0 <=? 971) with true. cbn [orb andb].
    rewrite E1023 in Hk. rewrite E971.
    replace (d * (9007199254740992 * P)) with (9007199254740992 * (d * P)) in Hk by ring.
    replace (d * (2 * P)) with (2 * (d * P)) by ring.
    replace ((18014398509481984 * P - P) * d) with (18014398509481983 * (d * P)) by ring.
    assert (HDP : 0 < d * P) by nia. set (DP := d * P) in *. clearbody DP.
    rewrite Z.eqb_eq, round_half_even_top by lia. lia.
  - (* the quotient is 2 ^ 1024 or more *)
    rewrite Z.max_l by lia. rewrite (proj2 (Z.ltb_lt 971 _)) by lia.
    split; [intros _|done].
    rewrite Z.max_l, Z.max_r in Hk by lia. change (2 ^ 0) with 1 in Hk.
    assert (Hp : 2 ^ 1024 <= 2 ^ k) by (apply Z.pow_le_mono_r; lia).
    rewrite E1024 in Hp. set (Q := 2 ^ k) in *. clearbody Q. nia.
Qed.

(** Three roundings in a row, each to the nearest on its scale. *)
Lemma three_roundings (T m' m n d E E' : Z) :
  0 < d -> 1048576 <= E -> 8192 <= E' ->
  - E' <= 2 * (T * E' - 10 * m') <= E' ->
  - E <= 2 * (m' * E - 100 * m * E') <= E ->
  - d <= 2 * (m * d - n * E) <= d ->
  Z.abs (T * d - 1000 * n) <= d.
Proof.
  intros Hd HE HE' H1 H2 H3.
  assert (W1 : 0 <= d * E) by (apply Z.mul_nonneg_nonneg; lia).
  pose proof (Z.mul_le_mono_nonneg_r _ _ (d * E) W1 (proj1 H1)) as B1a.
  pose proof (Z.mul_le_mono_nonneg_r _ _ (d * E) W1 (proj2 H1)) as B1b.
  pose proof (Z.mul_le_mono_nonneg_r _ _ d ltac:(lia) (proj1 H2)) as B2a.
  pose proof (Z.mul_le_mono_nonneg_r _ _ d ltac:(lia) (proj2 H2)) as B2b.
  pose proof (Z.mul_le_mono_nonneg_r _ _ E' ltac:(lia) (proj1 H3)) as B3a.
  pose proof (Z.mul_le_mono_nonneg_r _ _ E' ltac:(lia) (proj2 H3)) as B3b.
  assert (B4 : 0 <= (E - 2000) * (E' - 20)) by (apply Z.mul_nonneg_nonneg; lia).
  assert (B5 : 0 <= d * (E * E' - 10 * E - 1000 * E')).
  { apply Z.mul_nonneg_nonneg; [lia|]. lia. }
  assert (HEE : 0 < E * E') by (apply Z.mul_pos_pos; lia).
  assert (Hid : 2 * (T * d - 1000 * n) * (E * E') =
                (2 * (T * E' - 10 * m')) * (d * E) +
                10 * ((2 * (m' * E - 100 * m * E')) * d) +
                1000 * ((2 * (m * d - n * E)) * E')) by ring.
  assert (HX : - (2 * d) * (E * E') <= 2 * (T * d - 1000 * n) * (E * E') <= (2 * d) * (E * E')).
  { rewrite Hid. lia. }
  destruct HX as [HXa HXb].
  apply (Z.mul_le_mono_pos_r _ _ (E * E') HEE) in HXa, HXb.
  apply Z.abs_le. lia.
Qed.

(** The percentage of a quotient up to [2 ^ 32]: the count of tenths
    that is written is less than a tenth away from a thousand times the
    quotient. *)
Lemma tenths_accurate (a b : Z) :
  b <> 0 -> Z.abs a <= 2 ^ 32 * Z.abs b ->
  overflows (hundredfold a b) = false /\
  0 <= tenths (hundredfold a b) /\
  Z.abs (tenths (hundredfold a b) * Z.abs b - 1000 * Z.abs a) <= Z.abs b.
Proof.
  intros Hb Hle. unfold hundredfold, tenths.
  assert (Hd : 0 < Z.abs b) by lia. pose proof (Z.abs_nonneg a) as Hn.
  set (n := Z.abs a) in *. set (d := Z.abs b) in *. clearbody n d.
  change (2 ^ 32) with 4294967296 in Hle.
  destruct (nearest_double_fine n d 32 Hn Hd ltac:(lia)) as (He & Hm & H3).
  { change (2 ^ (32 + 1)) with 8589934592. lia. }
  set (q := nearest_double n d) in *. clearbody q.
  assert (Hnum : numerator q = mantissa q).
  { unfold numerator. rewrite Z.max_r by lia. change (2 ^ 0) with 1. lia. }
  assert (Hden : denominator q = 2 ^ (- exponent q)).
  { unfold denominator. by rewrite Z.max_l by lia. }
  rewrite Hnum, Hden. clear Hnum Hden.
  assert (HE : 1048576 <= 2 ^ (- exponent q)).
  { change 1048576 with (2 ^ 20). apply Z.pow_le_mono_r; lia. }
  set (E := 2 ^ (- exponent q)) in *. set (m := mantissa q) in *. clearbody E m.
  assert (Hm32 : m <= 4294967296 * E).
  { assert (Hc : n * E <= 4294967296 * d * E) by (apply Z.mul_le_mono_nonneg_r; lia).
    assert (Hc' : d * (2 * m) <= d * (2 * 4294967296 * E + 1)) by lia.
    apply (Z.mul_le_mono_pos_l _ _ d Hd) in Hc'. lia. }
  destruct (nearest_double_fine (100 * m) E 39 ltac:(lia) ltac:(lia) ltac:(lia))
    as (He' & Hm' & H2).
  { change (2 ^ (39 + 1)) with 1099511627776. lia. }
  set (p := nearest_double (100 * m) E) in *. clearbody p.
  split.
  { unfold overflows. rewrite (proj2 (Z.ltb_ge 971 _)) by lia.
    by rewrite (proj2 (Z.eqb_neq _ 971)) by lia. }
  assert (Hnum : numerator p = mantissa p).
  { unfold numerator. rewrite Z.max_r by lia. change (2 ^ 0) with 1. lia. }
  assert (Hden : denominator p = 2 ^ (- exponent p)).
  { unfold denominator. by rewrite Z.max_l by lia. }
  rewrite Hnum, Hden. clear Hnum Hden.
  assert (HE' : 8192 <= 2 ^ (- exponent p)).
  { change 8192 with (2 ^ 13). apply Z.pow_le_mono_r; lia. }
  set (E' := 2 ^ (- exponent p)) in *. set (m' := mantissa p) in *. clearbody E' m'.
  destruct (round_half_even_spec (10 * m') E' ltac:(lia) ltac:(lia)) as [HT H1].
  split; [done|].
  by apply (three_roundings _ m' m n d E E').
Qed.

(** *** The progress hook *)

Lemma progress_hook_run w (d : dict) s :
  progress_hook w d s =
    match d !! "status" with
    | None => (Raise (KeyError (PStr (lit "status"))), s)
    | Some status =>
        if bool_decide (status = PStr (lit "downloading")) then
          match format_ratio (get d "downloaded_bytes" (PInt 0)) (get d "total_bytes" (PInt 1)) with
          | Ok pct => send w (EditText (msg_progress ++ pct)) s
          | Raise e => (Raise e, s)
          end
        else (Ok tt, s)
    end.
Proof.
  unfold progress_hook, mbind at 1, M_bind at 1, lift at 1, getitem.
  destruct (d !! "status") as [status|]; [|reflexivity].
  destruct (bool_decide _); [|reflexivity].
  unfold mbind, M_bind, lift. by destruct (format_ratio _ _).
Qed.

Lemma progress_hook_trace w d s :
  exists evs,
    trace (progress_hook w d s).2 = trace s ++ evs /\
    user_context (progress_hook w d s).2 = user_context s /\
    Forall (fun e => stage e = 3%nat) evs /\
    ((progress_hook w d s).1 = Ok tt -> evs = progress_edit d /\ reported d).
Proof.
  rewrite progress_hook_run. unfold reported, progress_edit.
  destruct (d !! "status") as [status|] eqn:Hs.
  - destruct (bool_decide (status = _)) eqn:Hd.
    + apply bool_decide_eq_true in Hd. subst status.
      rewrite bool_decide_eq_true_2 by done.
      destruct (format_ratio _ _) as [pct|e].
      * exists [EditText (msg_progress ++ pct)]. rewrite send_run. simpl.
        repeat split; eauto.
      * exists []. simpl. rewrite app_nil_r. repeat split; auto; discriminate.
    + apply bool_decide_eq_false in Hd.
      rewrite bool_decide_eq_false_2 by congruence.
      exists []. simpl. rewrite app_nil_r. repeat split; auto. congruence.
  - exists []. simpl. rewrite app_nil_r. repeat split; auto; discriminate.
Qed.

Lemma run_hooks_trace w ds s :
  exists evs,
    trace (run_hooks w ds s).2 = trace s ++ evs /\
    user_context (run_hooks w ds s).2 = user_context s /\
    Forall (fun e => stage e = 3%nat) evs /\
    ((run_hooks w ds s).1 = Ok tt ->
       evs = flat_map progress_edit ds /\ Forall reported ds).
Proof.
  revert s. induction ds as [|d ds IH]; intros s.
  - exists []. simpl. rewrite app_nil_r. auto.
  - simpl. unfold mbind, M_bind.
    destruct (progress_hook_trace w d s) as (ev1 & T1 & C1 & F1 & O1).
    destruct (progress_hook w d s) as [[[]|e] s1] eqn:E1; simpl in *.
    + destruct (IH s1) as (ev2 & T2 & C2 & F2 & O2).
      exists (ev1 ++ ev2). rewrite T2, T1, C2, C1, app_assoc.
      split; [done|]. split; [done|]. split; [by apply Forall_app|].
      intros Hok. destruct (O1 eq_refl) as [-> R1]. destruct (O2 Hok) as [-> R2].
      split; [done|by constructor].
    + exists ev1. repeat split; auto; discriminate.
Qed.

(** *** Sending the file *)

Lemma send_file_run w path i s :
  send_file w path i s =
    let s1 := record (OpenFile path) s in
    match open_rb w (trace s) path with
    | Some e => (Raise e, s1)
    | None =>
        match fields i !! "title" with
        | None => (Raise (KeyError (PStr (lit "title"))), s1)
        | Some t =>
            if endswith_any audio_suffixes path then
              match fields i !! "uploader" with
              | None => (Raise (KeyError (PStr (lit "uploader"))), s1)
              | Some u => send w (ReplyAudio path t u) s1
              end
            else send w (ReplyVideo path (caption_of t)) s1
        end
    end.
Proof.
  unfold send_file, open_file, mbind, M_bind, lift, getitem. cbv zeta.
  destruct (endswith_any audio_suffixes path);
    destruct (open_rb w (trace s) path); simpl; try reflexivity;
    destruct (fields i !! "title"); simpl; try reflexivity.
  by destruct (fields i !! "uploader").
Qed.



(** The extension as [os.path.splitext] gives it, on some paths. *)
Example extension_examples :
  extension (lit "/tmp/tmpk3v9/abc123.mp4") = lit ".mp4" /\
  extension (lit "/tmp/tmpk3v9/abc.123.webm") = lit ".webm" /\
  extension (lit "/tmp/tmp.k3v9/abc123") = [] /\
  extension (lit "/tmp/tmpk3v9/..mp3") = [] /\
  extension (lit "/tmp/tmpk3v9/.a.mp3") = lit ".mp3" /\
  extension (lit "abc123.") = lit ".".
Proof. vm_compute. repeat split. Qed.

(** *** Steps in order *)

(** The four kinds of edit are told apart by their text. *)
Example stage_of_edits pct text :
  stage first_edit = 0%nat /\ stage (EditText (msg_progress ++ pct)) = 3%nat /\
  stage last_edit = 9%nat /\ stage (EditText (msg_failed ++ text)) = 11%nat.
Proof. repeat split. Qed.

Lemma next_stage_le n k : (n <= k)%nat -> (next_stage n <= S k)%nat.
Proof. unfold next_stage. destruct (n =? 3)%nat eqn:E; [apply Nat.eqb_eq in E|]; lia. Qed.

Lemma next_stage_mono n : (n <= next_stage n)%nat.
Proof. unfold next_stage. destruct (n =? 3)%nat eqn:E; [apply Nat.eqb_eq in E|]; lia. Qed.

Lemma in_order_weaken lo lo' evs :
  (lo' <= lo)%nat -> in_order lo evs = true -> in_order lo' evs = true.
Proof.
  destruct evs as [|e evs]; [done|]. simpl. intros Hle.
  rewrite !andb_true_iff, !Nat.leb_le. intros [[H1 H2] H3]. repeat split; auto. lia.
Qed.

(** Events of steps up to [k], in order, followed by events of later
    steps, in order. *)
Lemma in_order_app lo k evs1 evs2 :
  (lo <= S k)%nat ->
  in_order lo evs1 = true ->
  Forall (fun e => (stage e <= k)%nat) evs1 ->
  in_order (S k) evs2 = true ->
  in_order lo (evs1 ++ evs2) = true.
Proof.
  intros Hlo H1 Hb H2. revert lo Hlo H1.
  induction Hb as [|e evs1 He Hb IH]; intros lo Hlo H1; simpl in *.
  - by apply (in_order_weaken (S k)).
  - rewrite !andb_true_iff in *. destruct H1 as [[Ha Hc] Hd].
    repeat split; auto. apply IH; [by apply next_stage_le|done].
Qed.

Lemma in_order_hooks evs :
  Forall (fun e => stage e = 3%nat) evs -> in_order 3 evs = true.
Proof. induction 1 as [|e evs He _ IH]; simpl; [done|]. by rewrite He. Qed.

Lemma hooks_bound evs :
  Forall (fun e => stage e = 3%nat) evs -> Forall (fun e => (stage e <= 3)%nat) evs.
Proof. intros H. eapply Forall_impl; [exact H|]. intros e ->. simpl. lia. Qed.

Create HintDb steps.
#[local] Hint Resolve in_order_hooks hooks_bound : steps.

Lemma in_order_lower lo evs :
  in_order lo evs = true -> Forall (fun e => (lo <= stage e)%nat) evs.
Proof.
  revert lo. induction evs as [|e evs IH]; intros lo; simpl; [done|].
  rewrite !andb_true_iff, !Nat.leb_le. intros [[H1 H2] H3].
  constructor; [done|]. specialize (IH _ H3).
  eapply Forall_impl; [exact IH|]. intros x Hx. simpl in Hx.
  pose proof (next_stage_mono (stage e)). lia.
Qed.

(** *** The download block *)

Lemma download_run w url fid outtmpl s chunks r :
  extract_download w (trace s) url fid outtmpl = (chunks, r) ->
  download w url fid outtmpl s =
    match run_hooks w chunks (record (Download url fid outtmpl) s) with
    | (Ok _, s') => (r, s')
    | (Raise e, s') => (Raise e, s')
    end.
Proof.
  intros E. unfold download. rewrite E. unfold mbind, M_bind, lift.
  by destruct (run_hooks _ _ _) as [[[]|e] s'].
Qed.

(** What a run of [send_file] adds, and when it returns. *)
Lemma send_file_trace w path i s :
  exists evs,
    trace (send_file w path i s).2 = trace s ++ OpenFile path :: evs /\
    user_context (send_file w path i s).2 = user_context s /\
    in_order 6 evs = true /\ Forall (fun e => (stage e <= 6)%nat) evs /\
    ((send_file w path i s).1 = Ok tt ->
       exists reply, file_message path i = Some reply /\ evs = [reply]).
Proof.
  rewrite send_file_run. cbv zeta. unfold file_message.
  destruct (open_rb w (trace s) path).
  { exists []. simpl. repeat split; auto; discriminate. }
  destruct (fields i !! "title") as [t|].
  2:{ exists []. simpl. repeat split; auto; discriminate. }
  destruct (endswith_any audio_suffixes path).
  - destruct (fields i !! "uploader") as [u|].
    2:{ exists []. simpl. repeat split; auto; discriminate. }
    exists [ReplyAudio path t u]. rewrite send_run. simpl. rewrite <- app_assoc.
    repeat split; eauto.
  - exists [ReplyVideo path (caption_of t)]. rewrite send_run. simpl. rewrite <- app_assoc.
    repeat split; eauto.
Qed.

Lemma fetch_into_run w uid fid d s ss chunks r :
  user_context s !! uid = Some ss ->
  extract_download w (trace s) (link ss) fid (outtmpl_in d) = (chunks, r) ->
  fetch_into w uid fid d s =
    match run_hooks w chunks (record (Download (link ss) fid (outtmpl_in d)) s) with
    | (Raise e, s4) => (Raise e, s4)
    | (Ok _, s4) =>
        match r with
        | Raise e => (Raise e, s4)
        | Ok i =>
            match prepare_filename w (trace s4) i with
            | Raise e => (Raise e, record (PrepareFilename i) s4)
            | Ok path => send_file w path i (record (PrepareFilename i) s4)
            end
        end
    end.
Proof.
  intros Hss Hd. unfold fetch_into, mbind, M_bind, get_session. rewrite Hss.
  fold (@mbind M _). unfold mbind, M_bind.
  rewrite (download_run _ _ _ _ _ _ _ Hd).
  destruct (run_hooks w chunks _) as [[[]|e] s4]; [|reflexivity].
  destruct r as [i|e]; [|reflexivity].
  unfold filename. by destruct (prepare_filename w (trace s4) i).
Qed.

(** The body of the [with] block: the download call, the hook's edits,
    the file name, the file. *)
Lemma fetch_into_trace w uid fid d s ss chunks r :
  user_context s !! uid = Some ss ->
  extract_download w (trace s) (link ss) fid (outtmpl_in d) = (chunks, r) ->
  exists evs,
    trace (fetch_into w uid fid d s).2 =
      trace s ++ Download (link ss) fid (outtmpl_in d) :: evs /\
    user_context (fetch_into w uid fid d s).2 = user_context s /\
    in_order 3 evs = true /\ Forall (fun e => (stage e <= 6)%nat) evs /\
    ((fetch_into w uid fid d s).1 = Ok tt ->
       exists i path reply,
         r = Ok i /\ file_message path i = Some reply /\
         Forall reported chunks /\
         evs = flat_map progress_edit chunks ++
               [PrepareFilename i; OpenFile path; reply]).
Proof.
  intros Hss Hd. rewrite (fetch_into_run _ _ _ _ _ _ _ _ Hss Hd).
  destruct (run_hooks_trace w chunks (record (Download (link ss) fid (outtmpl_in d)) s))
    as (hev & Th & Ch & Fh & Oh).
  assert (Bh : Forall (fun e => (stage e <= 6)%nat) hev).
  { eapply Forall_impl; [exact Fh|]. intros ? ->. simpl. lia. }
  destruct (run_hooks w chunks _) as [[[]|e] s4]; simpl in Th, Ch, Oh.
  2:{ exists hev. simpl. rewrite Th, <- app_assoc.
      repeat split; auto with steps; discriminate. }
  destruct (Oh eq_refl) as [Eh Rh]. clear Oh. destruct r as [i|e].
  2:{ exists hev. simpl. rewrite Th, <- app_assoc.
      repeat split; auto with steps; discriminate. }
  destruct (prepare_filename w (trace s4) i) as [path|e].
  2:{ exists (hev ++ [PrepareFilename i]). simpl. rewrite Th, <- !app_assoc.
      repeat split; auto.
      - apply (in_order_app 3 3); auto with steps.
      - apply Forall_app. split; [done|by repeat constructor].
      - discriminate. }
  destruct (send_file_trace w path i (record (PrepareFilename i) s4))
    as (sev & Ts & Cs & Is & Fs & Os).
  exists (hev ++ PrepareFilename i :: OpenFile path :: sev).
  rewrite Ts, Cs. simpl. rewrite Th, Ch, <- !app_assoc. simpl.
  repeat split; auto.
  - apply (in_order_app 3 3); auto with steps.
  - apply Forall_app. split; [done|]. repeat constructor; auto.
  - intros Hok. destruct (Os Hok) as (reply & Hm & ->).
    exists i, path, reply. by rewrite Eh.
Qed.

Lemma fetch_and_send_run w uid fid s :
  fetch_and_send w uid fid s =
    match mkdtemp w (trace s) with
    | Raise e => (Raise e, record MkTemp s)
    | Ok d =>
        let '(r, s') := fetch_into w uid fid d (record MkTemp s) in
        match rmtree w (trace s') d with
        | None => (r, record (Cleanup d) s')
        | Some e => (Raise e, record (Cleanup d) s')
        end
    end.
Proof. reflexivity. Qed.

(** The whole [with] block when the directory could be made: the body,
    then the release of the directory, whatever the body did. *)
Lemma fetch_and_send_trace w uid fid s ss d :
  user_context s !! uid = Some ss ->
  mkdtemp w (trace s) = Ok d ->
  exists body,
    trace (fetch_and_send w uid fid s).2 =
      trace s ++ MkTemp :: Download (link ss) fid (outtmpl_in d) :: body ++ [Cleanup d] /\
    user_context (fetch_and_send w uid fid s).2 = user_context s /\
    in_order 3 body = true /\ Forall (fun e => (stage e <= 6)%nat) body /\
    ((fetch_and_send w uid fid s).1 = Ok tt ->
       exists chunks i path reply,
         extract_download w (trace s ++ [MkTemp]) (link ss) fid (outtmpl_in d) = (chunks, Ok i) /\
         file_message path i = Some reply /\
         Forall reported chunks /\
         body = flat_map progress_edit chunks ++
                [PrepareFilename i; OpenFile path; reply]).
Proof.
  intros Hss Hd. rewrite fetch_and_send_run, Hd.
  destruct (extract_download w (trace s ++ [MkTemp]) (link ss) fid (outtmpl_in d))
    as [chunks r] eqn:Hx.
  destruct (fetch_into_trace w uid fid d (record MkTemp s) ss chunks r Hss Hx)
    as (body & Tb & Cb & Ib & Fb & Ob).
  exists body. destruct (fetch_into w uid fid d (record MkTemp s)) as [rb s'].
  simpl in Tb, Cb, Ob.
  destruct (rmtree w (trace s') d); simpl; rewrite Tb, Cb, <- !app_assoc; simpl.
  - repeat split; auto. discriminate.
  - repeat split; auto. intros ->.
    destruct (Ob eq_refl) as (i & path & reply & -> & Hm & Hr & ->).
    by exists chunks, i, path, reply.
Qed.

Lemma fetch_and_send_no_dir w uid fid s e :
  mkdtemp w (trace s) = Raise e ->
  fetch_and_send w uid fid s = (Raise e, record MkTemp s).
Proof. intros Hd. by rewrite fetch_and_send_run, Hd. Qed.

(** *** The handler around the block *)

Lemma download_error_run w e s :
  download_error w e s =
    (raised (transport w (trace s ++ [LogError (lit "Download error: " ++ str_exn e)])
               (EditText (msg_failed ++ take 100 (str_exn e)))),
     {| user_context := user_context s;
        trace := trace s ++ [LogError (lit "Download error: " ++ str_exn e);
                             EditText (msg_failed ++ take 100 (str_exn e))] |}).
Proof.
  unfold download_error, mbind, M_bind, emit, send, record. simpl.
  by rewrite <- app_assoc.
Qed.

Lemma download_flow_run w uid fid s :
  download_flow w uid fid s =
    match transport w (trace s) first_edit with
    | Some e => (Raise e, record first_edit s)
    | None =>
        match fetch_and_send w uid fid (record first_edit s) with
        | (Raise e, s1) => download_error w e s1
        | (Ok _, s1) =>
            match del_session uid s1 with
            | (Raise e, s2) => download_error w e s2
            | (Ok _, s2) =>
                match transport w (trace s2) last_edit with
                | Some e => download_error w e (record last_edit s2)
                | None => (Ok tt, record last_edit s2)
                end
            end
        end
    end.
Proof.
  unfold download_flow, mbind at 1, M_bind at 1. rewrite send_run.
  destruct (transport w (trace s) first_edit); [reflexivity|]. simpl.
  unfold try_except, mbind, M_bind.
  destruct (fetch_and_send w uid fid _) as [[[]|e] s1]; [|reflexivity].
  destruct (del_session uid s1) as [[[]|e] s2]; [|reflexivity].
  rewrite send_run. by destruct (transport w (trace s2) last_edit).
Qed.

Lemma format_selected_with_session w uid fid s ss :
  user_context s !! uid = Some ss ->
  format_selected w uid fid s = download_flow w uid fid s.
Proof.
  intros Hss. unfold format_selected, mbind, M_bind, has_session. rewrite Hss.
  by rewrite bool_decide_eq_true_2 by eauto.
Qed.

Lemma fetch_and_send_sessions w uid fid s ss :
  user_context s !! uid = Some ss ->
  user_context (fetch_and_send w uid fid s).2 = user_context s.
Proof.
  intros Hss. destruct (mkdtemp w (trace s)) as [d|e] eqn:Hd.
  - by destruct (fetch_and_send_trace w uid fid s ss d Hss Hd) as (? & _ & ? & _).
  - by rewrite (fetch_and_send_no_dir _ _ _ _ _ Hd).
Qed.

Lemma del_session_run uid s ss :
  user_context s !! uid = Some ss ->
  del_session uid s =
    (Ok tt, {| user_context := delete uid (user_context s);
               trace := trace s ++ [DelSession uid] |}).
Proof. intros Hss. unfold del_session. by rewrite Hss. Qed.

(** What follows the [with] block: the session is deleted and the last
    edit made if the block returned, and the [except] block runs if the
    block or the last edit raised. *)
Lemma download_flow_tail w uid fid s ss :
  user_context s !! uid = Some ss ->
  transport w (trace s) first_edit = None ->
  exists tail,
    trace (download_flow w uid fid s).2 =
      trace (fetch_and_send w uid fid (record first_edit s)).2 ++ tail /\
    in_order 8 tail = true /\
    match (fetch_and_send w uid fid (record first_edit s)).1 with
    | Ok _ =>
        user_context (download_flow w uid fid s).2 = delete uid (user_context s) /\
        ((download_flow w uid fid s).1 = Ok tt ->
         Forall (fun e => stage e <> 10%nat) tail -> tail = [DelSession uid; last_edit]) /\
        exists rest, tail = DelSession uid :: rest
    | Raise _ =>
        user_context (download_flow w uid fid s).2 = user_context s /\
        ~ Forall (fun e => stage e <> 10%nat) tail /\
        Forall (fun e => stage e <> 8%nat) tail
    end.
Proof.
  intros Hss Hn. rewrite download_flow_run, Hn.
  pose proof (fetch_and_send_sessions w uid fid (record first_edit s) ss Hss) as Hc.
  destruct (fetch_and_send w uid fid (record first_edit s)) as [[[]|e] s1];
    simpl in Hc; cbn [fst snd].
  - rewrite (del_session_run uid s1 ss) by (by rewrite Hc).
    cbn [trace]. destruct (transport w _ last_edit) as [e|].
    + rewrite download_error_run. simpl.
      exists [DelSession uid; last_edit; LogError (lit "Download error: " ++ str_exn e);
              EditText (msg_failed ++ take 100 (str_exn e))].
      rewrite <- !app_assoc, Hc. simpl. repeat split; auto; [|by eexists].
      intros _ Hf. exfalso.
      apply Forall_cons in Hf as [_ Hf]. apply Forall_cons in Hf as [_ Hf].
      apply Forall_cons in Hf as [Hf _]. by apply Hf.
    + simpl. exists [DelSession uid; last_edit].
      rewrite <- !app_assoc, Hc. simpl. repeat split; auto. by eexists.
  - rewrite download_error_run. simpl.
    exists [LogError (lit "Download error: " ++ str_exn e);
            EditText (msg_failed ++ take 100 (str_exn e))].
    repeat split; auto.
    all: try (by repeat constructor).
    all: intros Hf; apply Forall_cons in Hf as [Hf _]; by apply Hf.
Qed.

(** Every run of the download flow for a user with a session, read off
    the first answers of the world. *)
Lemma download_flow_events w uid fid s ss :
  user_context s !! uid = Some ss ->
  let evs := events_of (download_flow w uid fid) s in
  match transport w (trace s) first_edit with
  | Some e => evs = [first_edit]
  | None =>
      match mkdtemp w (trace s ++ [first_edit]) with
      | Raise e =>
          evs = [first_edit; MkTemp; LogError (lit "Download error: " ++ str_exn e);
                 EditText (msg_failed ++ take 100 (str_exn e))]
      | Ok d =>
          exists body tail,
            evs = first_edit :: MkTemp :: Download (link ss) fid (outtmpl_in d) ::
                  body ++ Cleanup d :: tail /\
            in_order 3 body = true /\ Forall (fun e => (stage e <= 6)%nat) body /\
            in_order 8 tail = true /\
            ((download_flow w uid fid s).1 = Ok tt ->
             Forall (fun e => stage e <> 10%nat) tail ->
             exists chunks i path reply,
               extract_download w (trace s ++ [first_edit; MkTemp]) (link ss) fid (outtmpl_in d)
                 = (chunks, Ok i) /\
               file_message path i = Some reply /\
               Forall reported chunks /\
               body = flat_map progress_edit chunks ++
                      [PrepareFilename i; OpenFile path; reply] /\
               tail = [DelSession uid; last_edit])
      end
  end.
Proof.
  intros Hss evs. subst evs. unfold events_of.
  destruct (transport w (trace s) first_edit) as [e|] eqn:Hn.
  { rewrite download_flow_run, Hn. simpl. by rewrite drop_app_length. }
  destruct (mkdtemp w (trace s ++ [first_edit])) as [d|e] eqn:Hd.
  - destruct (download_flow_tail w uid fid s ss Hss Hn) as (tail & Tt & It & Ht).
    rewrite Tt. clear Tt.
    destruct (fetch_and_send_trace w uid fid (record first_edit s) ss d Hss Hd)
      as (body & Tb & _ & Ib & Fb & Ob).
    rewrite Tb. simpl. rewrite <- !app_assoc. simpl. rewrite drop_app_length.
    exists body, tail. rewrite <- app_assoc. repeat split; auto.
    intros Hok Hf.
    destruct (fetch_and_send w uid fid (record first_edit s)).1 as [[]|e].
    + destruct (Ob eq_refl) as (chunks & i & path & reply & Hx & Hm & Hr & ->).
      destruct Ht as (_ & Ht & _). rewrite (Ht Hok Hf).
      exists chunks, i, path, reply. simpl in Hx. rewrite <- app_assoc in Hx. auto.
    + by destruct Ht as (_ & Ht & _).
  - rewrite download_flow_run, Hn.
    rewrite (fetch_and_send_no_dir w uid fid (record first_edit s) e Hd), download_error_run.
    simpl. by rewrite <- !app_assoc, drop_app_length.
Qed.



(** Every way [probe_flow] can go once the notice is out, in one
    statement: what it adds to the trace after the probe, the session
    map it leaves and how it ends. *)
Lemma probe_flow_cases w uid text s :
  transport w (trace s) notice = None ->
  exists rest,
    trace (probe_flow w uid text s).2 = trace s ++ notice :: Probe text :: rest /\
    match extract_probe w (trace s ++ [notice]) text with
    | Raise e =>
        rest = [LogError (lit "Format error: " ++ str_exn e);
                ReplyText (msg_no_formats ++ take 100 (str_exn e)) false None] /\
        user_context (probe_flow w uid text s).2 = user_context s
    | Ok i =>
        user_context (probe_flow w uid text s).2 =
          <[uid := {| link := text; sinfo := i |}]> (user_context s)
    end.
Proof.
  intros Hn. destruct (extract_probe w (trace s ++ [notice]) text) as [i|e] eqn:Hp.
  - rewrite (probe_flow_probe_ok _ _ _ _ _ Hn Hp). cbv zeta.
    destruct (fields i !! "title") as [t|].
    + destruct (transport w _ (menu_message i t)).
      * rewrite format_error_run. simpl. rewrite <- !app_assoc. simpl. eauto.
      * simpl. rewrite <- !app_assoc. simpl. eauto.
    + rewrite format_error_run. simpl. rewrite <- !app_assoc. simpl. eauto.
  - rewrite (probe_flow_probe_fails _ _ _ _ _ Hn Hp), format_error_run. simpl.
    rewrite <- !app_assoc. simpl. eauto.
Qed.

(** C4, amended: a message text that, once stripped, contains neither
    "youtube.com" nor "youtu.be" gets the warning and nothing else: the
    probe is not called and the session map is as it was.  A text that
    contains one of them gets the "Analyzing" notice first; when the
    transport accepts the notice the probe is called on the stripped
    text, and when the notice raises the handler ends with that
    exception, without a probe and without a change to the session
    map. *)
Theorem link_gate (w : world) (user_id : Z) (message_text : pystr) (s : state) :
  let h := handle_youtube_link w user_id message_text in
  if is_youtube_link (strip message_text) then
    match transport w (trace s) notice with
    | None => exists rest, events_of h s = notice :: Probe (strip message_text) :: rest
    | Some e =>
        events_of h s = [notice] /\ outcome h s = Raise e /\
        sessions_after h s = user_context s
    end
  else
    events_of h s = [ReplyText msg_invalid_link false None] /\
    sessions_after h s = user_context s /\
    Forall (fun e => is_probe e = false) (events_of h s).
Proof.
  intros h. subst h. unfold events_of, sessions_after, outcome.
  destruct (is_youtube_link (strip message_text)) eqn:Hv.
  - rewrite (handle_accepts _ _ _ _ Hv).
    destruct (transport w (trace s) notice) as [e|] eqn:Hn.
    + rewrite (probe_flow_notice_fails _ _ _ _ _ Hn). simpl.
      by rewrite drop_app_length.
    + destruct (probe_flow_cases w user_id (strip message_text) s Hn) as (rest & -> & _).
      exists rest. by rewrite drop_app_length.
  - rewrite (handle_rejects _ _ _ _ Hv). simpl. rewrite drop_app_length.
    repeat split; auto.
Qed.

(** C4 as stated does not hold, "for every text containing at least
    one of the substrings, it proceeds to the probe": with the
    transport unreachable, the notice of line 98 raises outside the
    [try] and the handler is left before the probe. *)
Lemma accepted_link_without_probe :
  is_youtube_link (strip a_link) = true /\
  events_of (handle_youtube_link offline 7 a_link) idle = [notice] /\
  outcome (handle_youtube_link offline 7 a_link) idle = Raise timed_out.
Proof. vm_compute. auto. Qed.

Lemma handle_stores_session w uid text s i :
  is_youtube_link (strip text) = true ->
  transport w (trace s) notice = None ->
  extract_probe w (trace s ++ [notice]) (strip text) = Ok i ->
  user_context (handle_youtube_link w uid text s).2 =
    <[uid := {| link := strip text; sinfo := i |}]> (user_context s).
Proof.
  intros Hv Hn Hp. rewrite (handle_accepts _ _ _ _ Hv).
  destruct (probe_flow_cases w uid (strip text) s Hn) as (rest & _ & Hc).
  by rewrite Hp in Hc.
Qed.

(** C5, amended: for a recognised link whose notice went out, if the
    format probe raises [e], the handler logs it, tells the user
    "Failed to get formats" with [str(e)] cut to 100 characters, ends
    as that last reply ends, and leaves the session map as it was.  If
    the probe returns [i], the session of the user is [i] and the
    stripped text from then on, whatever the rest of the [try] block
    does: when [i] has no title, or when the transport refuses the
    menu, that exception is caught, logged and reported in the same
    way, and the session stays; when the menu goes out the handler
    returns. *)
Theorem probe_failure_is_reported (w : world) (user_id : Z) (message_text : pystr)
    (s : state) :
  is_youtube_link (strip message_text) = true ->
  transport w (trace s) notice = None ->
  let h := handle_youtube_link w user_id message_text in
  let text := strip message_text in
  let logged e := LogError (lit "Format error: " ++ str_exn e) in
  let surfaced e := ReplyText (msg_no_formats ++ take 100 (str_exn e)) false None in
  match extract_probe w (trace s ++ [notice]) text with
  | Raise e =>
      events_of h s = [notice; Probe text; logged e; surfaced e] /\
      (length (take 100 (str_exn e)) <= 100)%nat /\
      outcome h s =
        raised (transport w (trace s ++ [notice; Probe text; logged e]) (surfaced e)) /\
      sessions_after h s = user_context s
  | Ok i =>
      sessions_after h s = <[user_id := {| link := text; sinfo := i |}]> (user_context s) /\
      exists kb,
        render_menu i = Ok kb /\
        match fields i !! "title" with
        | None =>
            let e := KeyError (PStr (lit "title")) in
            events_of h s = [notice; Probe text; PutSession user_id; logged e; surfaced e] /\
            outcome h s =
              raised (transport w (trace s ++ [notice; Probe text; PutSession user_id; logged e])
                        (surfaced e))
        | Some title =>
            let menu := ReplyText (msg_select title) true (Some kb) in
            match transport w (trace s ++ [notice; Probe text; PutSession user_id]) menu with
            | None =>
                events_of h s = [notice; Probe text; PutSession user_id; menu] /\
                outcome h s = Ok tt
            | Some e =>
                events_of h s =
                  [notice; Probe text; PutSession user_id; menu; logged e; surfaced e] /\
                (length (take 100 (str_exn e)) <= 100)%nat /\
                outcome h s =
                  raised (transport w
                            (trace s ++ [notice; Probe text; PutSession user_id; menu; logged e])
                            (surfaced e))
            end
        end
  end.
Proof.
  intros Hv Hn h text logged surfaced. subst h text logged surfaced.
  unfold events_of, sessions_after, outcome.
  rewrite (handle_accepts _ _ _ _ Hv).
  destruct (extract_probe w (trace s ++ [notice]) (strip message_text)) as [i|e] eqn:Hp.
  - split; [rewrite <- (handle_accepts _ _ _ _ Hv); by apply handle_stores_session|].
    exists (row_of <$> menu_of (get_formats i)). split; [apply render_menu_spec|].
    rewrite (probe_flow_probe_ok _ _ _ _ _ Hn Hp). cbv zeta. cbn [trace].
    destruct (fields i !! "title") as [t|].
    + unfold menu_message.
      destruct (transport w (trace s ++ _) _) as [e|].
      * rewrite format_error_run. cbn [fst snd trace record].
        rewrite <- !app_assoc, drop_app_length. cbn [app].
        split; [done|]. split; [|done]. rewrite length_take. lia.
      * cbn [fst snd trace record]. by rewrite <- !app_assoc, drop_app_length.
    + rewrite format_error_run. cbn [fst snd trace].
      by rewrite <- !app_assoc, drop_app_length.
  - rewrite (probe_flow_probe_fails _ _ _ _ _ Hn Hp), format_error_run. simpl.
    rewrite <- !app_assoc, drop_app_length. simpl.
    repeat split; auto. rewrite length_take. lia.
Qed.

Lemma probe_failure_is_reported_witness :
  events_of (handle_youtube_link unsupported 7 a_link) idle =
    [notice; Probe a_link;
     LogError (lit "Format error: ERROR: Unsupported URL");
     ReplyText (msg_no_formats ++ lit "ERROR: Unsupported URL") false None] /\
  sessions_after (handle_youtube_link unsupported 7 a_link) idle = ∅.
Proof.
  pose proof (probe_failure_is_reported unsupported 7 a_link idle eq_refl eq_refl) as H.
  cbv zeta in H. change (extract_probe unsupported _ _) with
    (@Raise info (Failure (lit "ERROR: Unsupported URL"))) in H.
  destruct H as (H1 & _ & _ & H2). split; [exact H1 | exact H2].
Defined.

(** C5 as stated does not hold, "if any exception is raised during the
    link-handling flow, no session is created": here the probe returns,
    the transport refuses the menu message, the exception is caught,
    logged and reported, and user 7, who had no session, has one. *)
Lemma session_created_despite_exception :
  events_of (handle_youtube_link strict_markdown 7 a_link) idle =
    [notice; Probe a_link; PutSession 7;
     menu_message video_info (PStr (lit "snake_case demo"));
     LogError (lit "Format error: Can't parse entities");
     ReplyText (msg_no_formats ++ lit "Can't parse entities") false None] /\
  outcome (handle_youtube_link strict_markdown 7 a_link) idle = Ok tt /\
  user_context idle !! 7 = None /\
  sessions_after (handle_youtube_link strict_markdown 7 a_link) idle !! 7 =
    Some {| link := a_link; sinfo := video_info |}.
Proof. vm_compute. auto. Qed.

(** The same with metadata that has no title: the [KeyError] of
    [info['title']] is raised after the session was stored. *)
Example session_created_despite_missing_title :
  events_of (handle_youtube_link untitled 7 a_link) idle =
    [notice; Probe a_link; PutSession 7;
     LogError (lit "Format error: 'title'");
     ReplyText (msg_no_formats ++ lit "'title'") false None] /\
  sessions_after (handle_youtube_link untitled 7 a_link) idle !! 7 =
    Some {| link := a_link; sinfo := untitled_info |}.
Proof. vm_compute. auto. Qed.

(** [handle_youtube_link] never reads [user_context]: what it says and
    how it ends depend on the trace alone. *)
Lemma handle_ignores_sessions w uid text s c :
  let s' := {| user_context := c; trace := trace s |} in
  trace (handle_youtube_link w uid text s').2 = trace (handle_youtube_link w uid text s).2 /\
  (handle_youtube_link w uid text s').1 = (handle_youtube_link w uid text s).1.
Proof.
  intros s'. destruct (is_youtube_link (strip text)) eqn:Hv.
  - rewrite !(handle_accepts _ _ _ _ Hv).
    destruct (transport w (trace s) notice) as [e|] eqn:Hn.
    + rewrite (probe_flow_notice_fails _ _ _ s _ Hn), (probe_flow_notice_fails _ _ _ s' _ Hn).
      done.
    + destruct (extract_probe w (trace s ++ [notice]) (strip text)) as [i|e] eqn:Hp.
      * rewrite (probe_flow_probe_ok _ _ _ s _ Hn Hp), (probe_flow_probe_ok _ _ _ s' _ Hn Hp).
        cbv zeta. simpl. destruct (fields i !! "title") as [t|].
        -- destruct (transport w _ (menu_message i t)); [|done].
           by rewrite !format_error_run.
        -- by rewrite !format_error_run.
      * rewrite (probe_flow_probe_fails _ _ _ s _ Hn Hp), (probe_flow_probe_fails _ _ _ s' _ Hn Hp).
        by rewrite !format_error_run.
  - by rewrite !(handle_rejects _ _ _ _ Hv).
Qed.

(** C10: [user_context] is a map, so a user has at most one session.
    When a user who has a session [old] sends a recognised link and the
    probe returns [i], the entry of that user becomes the new link and
    [i]; the entries of the other users, the set of users with a
    session and its size are as before; and the handler says and
    returns exactly what it would have with no session for that user:
    the old session is dropped without a word. *)
Theorem new_link_replaces_session (w : world) (user_id : Z) (message_text : pystr)
    (s : state) (old : session) (i : info) :
  user_context s !! user_id = Some old ->
  is_youtube_link (strip message_text) = true ->
  transport w (trace s) notice = None ->
  extract_probe w (trace s ++ [notice]) (strip message_text) = Ok i ->
  let h := handle_youtube_link w user_id message_text in
  let fresh := {| user_context := delete user_id (user_context s); trace := trace s |} in
  sessions_after h s !! user_id = Some {| link := strip message_text; sinfo := i |} /\
  (forall other, other <> user_id -> sessions_after h s !! other = user_context s !! other) /\
  dom (sessions_after h s) = dom (user_context s) /\
  size (sessions_after h s) = size (user_context s) /\
  events_of h s = events_of h fresh /\
  outcome h s = outcome h fresh.
Proof.
  intros Hold Hv Hn Hp h fresh.
  assert (Hs : sessions_after h s =
               <[user_id := {| link := strip message_text; sinfo := i |}]> (user_context s))
    by (by apply handle_stores_session).
  assert (Hin : user_id ∈ dom (user_context s)) by (by apply elem_of_dom; exists old).
  assert (Hdom : dom (sessions_after h s) = dom (user_context s)).
  { rewrite Hs, dom_insert_L. apply subseteq_union_1_L. by apply singleton_subseteq_l. }
  split; [by rewrite Hs, lookup_insert_eq|].
  split; [by intros other Hne; rewrite Hs, lookup_insert_ne|].
  split; [exact Hdom|].
  split; [by rewrite <- !size_dom, Hdom|].
  destruct (handle_ignores_sessions w user_id message_text s
              (delete user_id (user_context s))) as [Ht Ho].
  unfold events_of, outcome, h, fresh. simpl. by rewrite Ht, Ho.
Qed.

Lemma new_link_replaces_session_witness :
  sessions_after (handle_youtube_link sunny 7 another_link) awaiting !! 7 =
    Some {| link := another_link; sinfo := video_info |} /\
  size (sessions_after (handle_youtube_link sunny 7 another_link) awaiting) = 1%nat.
Proof.
  destruct (new_link_replaces_session sunny 7 another_link awaiting
              {| link := a_link; sinfo := video_info |} video_info
              eq_refl eq_refl eq_refl eq_refl) as (H1 & _ & _ & H2 & _).
  split; [exact H1 | exact H2].
Defined.

(** C1, amended: for a button press from a user with a session [ss],
    if the first edit raises, the handler is left with the session
    map as it was.  Otherwise, if the [with] block (temporary
    directory, download with its progress edits, file name, opening
    and sending the file, release of the directory) returns, the
    session of the user is absent afterward, whether the last edit
    then raises or not; and if the block raises, the session is still
    [ss] afterward. *)
Theorem session_after_download (w : world) (user_id : Z) (format_id : pystr)
    (s : state) (ss : session) :
  user_context s !! user_id = Some ss ->
  let h := format_selected w user_id format_id in
  match transport w (trace s) first_edit with
  | Some e => outcome h s = Raise e /\ sessions_after h s = user_context s
  | None =>
      match outcome (fetch_and_send w user_id format_id) (record first_edit s) with
      | Ok _ =>
          sessions_after h s = delete user_id (user_context s) /\
          sessions_after h s !! user_id = None
      | Raise _ =>
          sessions_after h s = user_context s /\
          sessions_after h s !! user_id = Some ss
      end
  end.
Proof.
  intros Hss h. subst h. unfold sessions_after, outcome.
  rewrite (format_selected_with_session _ _ _ _ _ Hss).
  destruct (transport w (trace s) first_edit) as [e|] eqn:Hn.
  { by rewrite download_flow_run, Hn. }
  destruct (download_flow_tail w user_id format_id s ss Hss Hn) as (tail & _ & _ & Ht).
  destruct (fetch_and_send w user_id format_id (record first_edit s)).1.
  - destruct Ht as [-> _]. by rewrite lookup_delete_eq.
  - destruct Ht as [-> _]. done.
Qed.

Lemma session_after_download_witness :
  sessions_after (format_selected sunny 7 (lit "22")) awaiting !! 7 = None.
Proof.
  pose proof (session_after_download sunny 7 (lit "22") awaiting
                {| link := a_link; sinfo := video_info |} eq_refl) as H.
  vm_compute in H. vm_compute. exact (proj2 H).
Defined.

(** C1 as stated does not hold, "if any step raises an exception, the
    session for that user is still present afterward": here the
    download and the dispatch go through, the last edit raises, the
    [except] block logs and reports it, and the session is gone. *)
Lemma session_gone_although_a_step_raised :
  user_context awaiting !! 7 = Some {| link := a_link; sinfo := video_info |} /\
  events_of (format_selected late_timeout 7 (lit "22")) awaiting =
    [first_edit; MkTemp; Download a_link (lit "22") (lit "/tmp/tmpk3v9/%(id)s.%(ext)s");
     PrepareFilename video_info; OpenFile (lit "/tmp/tmpk3v9/abc123.mp4");
     ReplyVideo (lit "/tmp/tmpk3v9/abc123.mp4") (caption_of (PStr (lit "snake_case demo")));
     Cleanup (lit "/tmp/tmpk3v9"); DelSession 7; last_edit;
     LogError (lit "Download error: Timed out");
     EditText (msg_failed ++ lit "Timed out")] /\
  sessions_after (format_selected late_timeout 7 (lit "22")) awaiting !! 7 = None.
Proof. vm_compute. auto. Qed.



(** C8: the welcome message carries one button whose [callback_data]
    is ['start'], and every callback query goes to [format_selected]
    with its data as the format identifier.  So a press of that button
    by a user without a session gets the "send a link first" warning;
    and for a user with a session [ss] it runs the download flow with
    ['start'] as the format: the flow begins with the first edit, every
    download call it makes is for the link of [ss] with the format
    ['start'], and that call is made as soon as the first edit and the
    temporary directory went through. *)
Theorem get_started_is_a_format_choice (w : world) (user_id : Z) (s : state) :
  events_of (start w) s = [ReplyText msg_welcome true (Some [[get_started]])] /\
  callback_data get_started = PStr (lit "start") /\
  (forall data, dispatch w (CallbackQuery user_id data) = format_selected w user_id data) /\
  let press := dispatch w (CallbackQuery user_id (lit "start")) in
  match user_context s !! user_id with
  | None =>
      events_of press s = [Answer msg_send_link_first] /\
      sessions_after press s = user_context s
  | Some ss =>
      press s = download_flow w user_id (lit "start") s /\
      (exists rest, events_of press s = first_edit :: rest) /\
      Forall (fun e => forall url fmt out,
                e = Download url fmt out -> url = link ss /\ fmt = lit "start")
        (events_of press s) /\
      (forall d,
         transport w (trace s) first_edit = None ->
         mkdtemp w (trace s ++ [first_edit]) = Ok d ->
         exists rest,
           events_of press s =
             first_edit :: MkTemp ::
             Download (link ss) (lit "start") (outtmpl_in d) :: rest)
  end.
Proof.
  split; [by unfold events_of, start; rewrite send_run; simpl; rewrite drop_app_length|].
  split; [done|]. split; [done|]. intros press. subst press. cbn [dispatch].
  destruct (user_context s !! user_id) as [ss|] eqn:Hss.
  - split; [by apply format_selected_with_session with ss|].
    unfold events_of. rewrite (format_selected_with_session _ _ _ _ _ Hss).
    fold (events_of (download_flow w user_id (lit "start")) s).
    pose proof (download_flow_events w user_id (lit "start") s ss Hss) as He. cbv zeta in He.
    destruct (transport w (trace s) first_edit) as [e|] eqn:Hn.
    { rewrite He. split; [by eexists|]. split; [|done].
      apply Forall_cons. split; [intros ??? [=]|by apply Forall_nil]. }
    destruct (mkdtemp w (trace s ++ [first_edit])) as [d|e] eqn:Hd.
    2:{ rewrite He. split; [by eexists|]. split; [|done].
        repeat (apply Forall_cons; split; [intros ??? [=]|]). by apply Forall_nil. }
    destruct He as (body & tail & -> & Ib & Fb & It & _).
    split; [by eexists|]. split.
    + apply Forall_cons. split; [intros ??? [=]|].
      apply Forall_cons. split; [intros ??? [=]|].
      apply Forall_cons. split; [by intros ??? [= <- <- _]|].
      apply Forall_app. split.
      * apply in_order_lower in Ib. eapply Forall_impl; [exact Ib|].
        intros e He url fmt out ->. simpl in He. lia.
      * apply Forall_cons. split; [intros ??? [=]|].
        apply in_order_lower in It. eapply Forall_impl; [exact It|].
        intros e He url fmt out ->. simpl in He. lia.
    + intros d' _ [= <-]. by eexists.
  - unfold events_of, sessions_after.
    rewrite (format_selected_without_session _ _ _ _ Hss). simpl.
    by rewrite drop_app_length.
Qed.

(** C9: for a progress dictionary whose status is ['downloading'] and
    whose two byte counts, as [d.get] returns them, are the integers
    [downloaded] and [total]: 0 and 1 are what [d.get] supplies for an
    absent key, and a key that is present supplies its own value.  If
    [total] is 0, the key ['total_bytes'] is present with the value 0,
    the division raises [ZeroDivisionError] and nothing is edited.  If
    the quotient is too large for a float, which is from
    [2 ^ 1024 - 2 ^ 970] on, the division raises [OverflowError] and
    nothing is edited.  Otherwise the hook edits the message to
    "Downloading... " followed by [downloaded / total] as a
    percentage, and ends as that edit ends; for a quotient up to
    [2 ^ 32] the percentage is a number with one decimal, with the sign
    of the quotient, that is no more than a tenth away from a hundred
    times [downloaded / total]. *)
Theorem progress_percentage (w : world) (d : dict) (s : state) (downloaded total : Z) :
  d !! "status" = Some (PStr (lit "downloading")) ->
  get d "downloaded_bytes" (PInt 0) = PInt downloaded ->
  get d "total_bytes" (PInt 1) = PInt total ->
  (d !! "downloaded_bytes" = None -> downloaded = 0) /\
  (d !! "total_bytes" = None -> total = 1) /\
  (forall v, d !! "downloaded_bytes" = Some v -> v = PInt downloaded) /\
  (forall v, d !! "total_bytes" = Some v -> v = PInt total) /\
  if total =? 0 then
    d !! "total_bytes" = Some (PInt 0) /\
    outcome (progress_hook w d) s = Raise ZeroDivisionError /\
    events_of (progress_hook w d) s = []
  else if (2 ^ 1024 - 2 ^ 970) * Z.abs total <=? Z.abs downloaded then
    outcome (progress_hook w d) s = Raise OverflowError /\
    events_of (progress_hook w d) s = []
  else
    exists pct,
      let edit := EditText ([9203%N] ++ lit " Downloading... " ++ pct) in
      events_of (progress_hook w d) s = [edit] /\
      outcome (progress_hook w d) s = raised (transport w (trace s) edit) /\
      pct = lit (percent_string downloaded total) /\
      (Z.abs downloaded <= 2 ^ 32 * Z.abs total ->
       exists t,
         0 <= t /\
         Z.abs (t * Z.abs total - 1000 * Z.abs downloaded) <= Z.abs total /\
         pct = lit ((if xorb (downloaded <? 0) (total <? 0) then "-" else "") +:+
                    pretty (t / 10) +:+ "." +:+ pretty (t mod 10) +:+ "%")).
Proof.
  intros Hs Ha Hb.
  split; [by intros E; unfold get in Ha; rewrite E in Ha; injection Ha|].
  split; [by intros E; unfold get in Hb; rewrite E in Hb; injection Hb|].
  split; [by intros v E; unfold get in Ha; rewrite E in Ha|].
  split; [by intros v E; unfold get in Hb; rewrite E in Hb|].
  unfold outcome, events_of. rewrite progress_hook_run, Hs.
  rewrite bool_decide_eq_true_2 by done. rewrite Ha, Hb. cbn [format_ratio].
  destruct (Z.eqb_spec total 0) as [->|Hne].
  { simpl. rewrite drop_all. repeat split; auto.
    unfold get in Hb. by destruct (d !! "total_bytes") as [v|]; simpl in Hb; [subst v|]. }
  pose proof (quotient_overflows_spec downloaded total Hne) as Hov.
  destruct (Z.leb_spec ((2 ^ 1024 - 2 ^ 970) * Z.abs total) (Z.abs downloaded)) as [Hbig|Hfit].
  { rewrite (proj2 Hov Hbig). cbn [fst snd]. by rewrite drop_all. }
  destruct (quotient_overflows downloaded total); [apply proj1 in Hov; lia|].
  exists (lit (percent_string downloaded total)). cbv zeta.
  rewrite send_run. cbn [fst snd trace record].
  split; [by rewrite drop_app_length|]. split; [done|]. split; [done|].
  intros Hsmall.
  destruct (tenths_accurate downloaded total Hne Hsmall) as (Hfin & Hpos & Hacc).
  exists (tenths (hundredfold downloaded total)).
  split; [done|]. split; [done|].
  unfold percent_string, quotient_sign. cbv zeta. by rewrite Hfin.
Qed.

Lemma progress_percentage_witness :
  chunk "downloading" 512 0 !! "total_bytes" = Some (PInt 0) /\
  outcome (progress_hook sunny (chunk "downloading" 512 0)) idle = Raise ZeroDivisionError /\
  events_of (progress_hook sunny (chunk "downloading" 512 1024)) idle =
    [EditText ([9203%N] ++ lit " Downloading... " ++ lit "50.0%")].
Proof.
  pose proof (progress_percentage sunny (chunk "downloading" 512 0) idle 512 0
                eq_refl eq_refl eq_refl) as (_ & _ & _ & _ & H).
  change (0 =? 0) with true in H. cbv iota in H.
  destruct H as (H1 & H2 & _). split; [exact H1|]. split; [exact H2|].
  pose proof (progress_percentage sunny (chunk "downloading" 512 1024) idle 512 1024
                eq_refl eq_refl eq_refl) as (_ & _ & _ & _ & H).
  change (1024 =? 0) with false in H. cbv iota in H.
  change ((2 ^ 1024 - 2 ^ 970) * Z.abs 1024 <=? Z.abs 512) with false in H. cbv iota in H.
  destruct H as (pct & H3 & _ & -> & _). vm_compute in H3. vm_compute. exact H3.
Defined.

(** The percentage on some quotients, and the largest quotient a float
    holds. *)
Example percent_examples :
  percent_string 512 1024 = "50.0%" /\ percent_string 1 3 = "33.3%" /\
  percent_string 1 8 = "12.5%" /\ percent_string 1 2000 = "0.1%" /\
  percent_string 3 2000 = "0.1%" /\ percent_string 1 16 = "6.2%" /\
  percent_string 3 16 = "18.8%" /\ percent_string 0 (-5) = "-0.0%" /\
  percent_string (-1) 3 = "-33.3%" /\ percent_string 2048 1024 = "200.0%" /\
  percent_string (10 ^ 308) 1 = "inf%" /\
  quotient_overflows (2 ^ 1024 - 2 ^ 970 - 1) 1 = false /\
  quotient_overflows (2 ^ 1024 - 2 ^ 970) 1 = true /\
  quotient_overflows (10 ^ 400) 1 = true.
Proof. vm_compute. repeat split. Qed.

Example progress_hook_reports :
  events_of (progress_hook sunny (chunk "downloading" 512 1024)) idle =
    [EditText (msg_progress ++ lit "50.0%")] /\
  events_of (progress_hook sunny (chunk "finished" 1024 1024)) idle = [] /\
  outcome (progress_hook sunny (<["status" := PStr (lit "downloading")]> ∅)) idle = Ok tt /\
  outcome (progress_hook sunny
             (<["status" := PStr (lit "downloading")]> (<["total_bytes" := PNone]> ∅))) idle
    = Raise (TypeError (lit "unsupported operand type(s) for /: 'int' and 'NoneType'")).
Proof. vm_compute. auto. Qed.

(** * Further properties *)

(** *** Substrings and stripping *)

Lemma contains_spec (needle s : pystr) :
  contains needle s = true <-> exists pre post, s = pre ++ needle ++ post.
Proof.
  induction s as [|b s IH]; cbn [contains]; rewrite orb_true_iff, startswith_spec.
  - split.
    + intros [[post E]|[=]]. by exists [], post.
    + intros (pre & post & E). left. destruct pre; [by exists post|done].
  - rewrite IH. split.
    + intros [[post E]|(pre & post & E)]; [by exists [], post|].
      exists (b :: pre), post. by rewrite E.
    + intros (pre & post & E). destruct pre as [|c pre]; [left; by exists post|].
      right. injection E as -> E. by exists pre, post.
Qed.

Lemma contains_rev (needle s : pystr) :
  contains (rev needle) (rev s) = contains needle s.
Proof.
  apply eq_true_iff_eq. rewrite !contains_spec. split.
  - intros (pre & post & E). exists (rev post), (rev pre).
    apply (f_equal (@rev N)) in E. rewrite rev_involutive in E.
    by rewrite E, !rev_app_distr, rev_involutive, <- app_assoc.
  - intros (pre & post & ->). exists (rev post), (rev pre).
    by rewrite !rev_app_distr, <- app_assoc.
Qed.

(** A needle that starts with a visible character is found in what
    [lstrip] leaves exactly when it is found in the whole. *)
Lemma contains_lstrip (c : N) (needle s : pystr) :
  isspace c = false ->
  contains (c :: needle) (lstrip s) = contains (c :: needle) s.
Proof.
  intros Hc. induction s as [|b s IH]; [done|].
  cbn [lstrip]. destruct (isspace b) eqn:Hb; [|done].
  rewrite IH. cbn -[N.eqb]. destruct (N.eqb_spec c b) as [->|_]; [congruence|done].
Qed.

Lemma contains_rstrip (needle s : pystr) (c : N) :
  isspace c = false ->
  contains (needle ++ [c]) (rstrip s) = contains (needle ++ [c]) s.
Proof.
  intros Hc. unfold rstrip.
  rewrite <- (contains_rev (needle ++ [c])), rev_involutive, rev_app_distr.
  cbn [rev app]. rewrite (contains_lstrip c _ _ Hc).
  rewrite <- (contains_rev (needle ++ [c]) s), rev_app_distr. done.
Qed.

Lemma is_youtube_link_strip (text : pystr) :
  is_youtube_link (strip text) = is_youtube_link text.
Proof.
  unfold is_youtube_link, strip.
  change (lit "youtube.com") with (lit "youtube.co" ++ [109%N]).
  change (lit "youtu.be") with (lit "youtu.b" ++ [101%N]).
  rewrite !contains_rstrip by done.
  change (lit "youtube.co" ++ [109%N]) with (121%N :: lit "outube.com").
  change (lit "youtu.b" ++ [101%N]) with (121%N :: lit "outu.be").
  by rewrite !contains_lstrip by done.
Qed.

Lemma lstrip_blank_app (l x : pystr) : blank l -> lstrip (l ++ x) = lstrip x.
Proof. induction 1 as [|c l Hc _ IH]; [done|]. cbn [app lstrip]. by rewrite Hc. Qed.

Lemma lstrip_split (s : pystr) : exists l, blank l /\ s = l ++ lstrip s.
Proof.
  induction s as [|c s (l & Hl & E)]; [by exists []|].
  cbn [lstrip]. destruct (isspace c) eqn:Hc.
  - exists (c :: l). split; [by constructor|]. by rewrite E at 1.
  - by exists [].
Qed.

Lemma lstrip_app (t r : pystr) :
  blank r -> lstrip (t ++ r) = if bool_decide (lstrip t = []) then [] else lstrip t ++ r.
Proof.
  intros Hr. induction t as [|c t IH]; cbn [app lstrip].
  - rewrite bool_decide_eq_true_2 by done.
    rewrite <- (app_nil_r r), lstrip_blank_app; done.
  - destruct (isspace c); [done|]. by rewrite bool_decide_eq_false_2.
Qed.

Lemma rstrip_app_blank (x r : pystr) : blank r -> rstrip (x ++ r) = rstrip x.
Proof.
  intros Hr. unfold rstrip. rewrite rev_app_distr, lstrip_blank_app; [done|].
  by apply Forall_rev.
Qed.

Lemma rstrip_split (s : pystr) : exists r, blank r /\ s = rstrip s ++ r.
Proof.
  destruct (lstrip_split (rev s)) as (l & Hl & E). exists (rev l).
  split; [by apply Forall_rev|]. unfold rstrip.
  by rewrite <- rev_app_distr, <- E, rev_involutive.
Qed.

(** Blanks around a text do not survive [strip]. *)
Lemma strip_padding (l text r : pystr) :
  blank l -> blank r -> strip (l ++ text ++ r) = strip text.
Proof.
  intros Hl Hr. unfold strip. rewrite lstrip_blank_app by done.
  rewrite lstrip_app by done. case_bool_decide as E.
  - by rewrite E.
  - by apply rstrip_app_blank.
Qed.

Lemma strip_split (s : pystr) : exists l r, blank l /\ blank r /\ s = l ++ strip s ++ r.
Proof.
  destruct (lstrip_split s) as (l & Hl & E).
  destruct (rstrip_split (lstrip s)) as (r & Hr & E').
  exists l, r. unfold strip. by rewrite <- E', <- E.
Qed.

Lemma strip_idemp (s : pystr) : strip (strip s) = strip s.
Proof.
  destruct (strip_split s) as (l & r & Hl & Hr & E).
  rewrite E at 2. by rewrite strip_padding.
Qed.

(** *** What one update does *)

Lemma events_of_extends {A} (m : M A) s evs :
  trace (m s).2 = trace s ++ evs -> trace (m s).2 = trace s ++ events_of m s.
Proof. intros E. unfold events_of. by rewrite E, drop_app_length. Qed.

(** The link handler: it adds to the trace, never calls the download,
    and either leaves the session map alone or stores the stripped,
    recognised text it has just probed. *)
Lemma handle_summary w uid text s :
  let h := handle_youtube_link w uid text in
  exists evs,
    trace (h s).2 = trace s ++ evs /\
    Forall (fun e => is_download e = false) evs /\
    (user_context (h s).2 = user_context s \/
     exists i, is_youtube_link (strip text) = true /\ Probe (strip text) ∈ evs /\
       user_context (h s).2 = <[uid := {| link := strip text; sinfo := i |}]> (user_context s)).
Proof.
  intros h. subst h. destruct (is_youtube_link (strip text)) eqn:Hv.
  2:{ rewrite (handle_rejects _ _ _ _ Hv). eexists. split; [reflexivity|].
      split; [by repeat constructor|by left]. }
  rewrite (handle_accepts _ _ _ _ Hv).
  destruct (transport w (trace s) notice) as [e|] eqn:Hn.
  { rewrite (probe_flow_notice_fails _ _ _ _ _ Hn). eexists. split; [reflexivity|].
    split; [by repeat constructor|by left]. }
  destruct (extract_probe w (trace s ++ [notice]) (strip text)) as [i|e] eqn:Hp.
  - rewrite (probe_flow_probe_ok _ _ _ _ _ Hn Hp). cbv zeta.
    assert (Hin : forall l, Probe (strip text) ∈ notice :: Probe (strip text) :: l)
      by (intros l; apply elem_of_cons; right; apply elem_of_cons; by left).
    destruct (fields i !! "title") as [t|].
    + destruct (transport w _ (menu_message i t)).
      * rewrite format_error_run. simpl. rewrite <- !app_assoc. simpl.
        eexists. split; [reflexivity|]. split; [by repeat constructor|]. right. eauto.
      * simpl. rewrite <- !app_assoc. simpl.
        eexists. split; [reflexivity|]. split; [by repeat constructor|]. right. eauto.
    + rewrite format_error_run. simpl. rewrite <- !app_assoc. simpl.
      eexists. split; [reflexivity|]. split; [by repeat constructor|]. right. eauto.
  - rewrite (probe_flow_probe_fails _ _ _ _ _ Hn Hp), format_error_run. simpl.
    rewrite <- !app_assoc. simpl.
    eexists. split; [reflexivity|]. split; [by repeat constructor|by left].
Qed.

Lemma download_flow_extends w uid fid s ss :
  user_context s !! uid = Some ss ->
  exists evs, trace (download_flow w uid fid s).2 = trace s ++ evs.
Proof.
  intros Hss. destruct (transport w (trace s) first_edit) as [e|] eqn:Hn.
  { rewrite download_flow_run, Hn. by eexists. }
  destruct (download_flow_tail w uid fid s ss Hss Hn) as (tail & -> & _).
  destruct (mkdtemp w (trace s ++ [first_edit])) as [d|e] eqn:Hd.
  - destruct (fetch_and_send_trace w uid fid (record first_edit s) ss d Hss Hd) as (body & -> & _).
    simpl. rewrite <- !app_assoc. by eexists.
  - rewrite (fetch_and_send_no_dir w uid fid (record first_edit s) e Hd). simpl.
    rewrite <- !app_assoc. by eexists.
Qed.

Lemma download_flow_sessions w uid fid s ss :
  user_context s !! uid = Some ss ->
  user_context (download_flow w uid fid s).2 = user_context s \/
  user_context (download_flow w uid fid s).2 = delete uid (user_context s).
Proof.
  intros Hss. destruct (transport w (trace s) first_edit) as [e|] eqn:Hn.
  { rewrite download_flow_run, Hn. by left. }
  destruct (download_flow_tail w uid fid s ss Hss Hn) as (tail & _ & _ & Ht).
  destruct (fetch_and_send w uid fid (record first_edit s)).1; destruct Ht as [-> _]; auto.
Qed.

Lemma in_order_upper lo evs :
  in_order lo evs = true -> Forall (fun e => (stage e <= 11)%nat) evs.
Proof.
  revert lo. induction evs as [|e evs IH]; intros lo; simpl; [done|].
  rewrite !andb_true_iff, !Nat.leb_le. intros [[H1 H2] H3].
  constructor; [done|]. by apply (IH _ H3).
Qed.

Lemma stage_probe e : (stage e <= 11)%nat -> is_probe e = false.
Proof. destruct e; try done. simpl. lia. Qed.

(** The download calls of the flow are for the link of the session and
    the format of the press; the flow never probes. *)
Lemma download_flow_downloads w uid fid s ss :
  user_context s !! uid = Some ss ->
  Forall (fun e => forall url fmt out, e = Download url fmt out -> url = link ss /\ fmt = fid)
    (events_of (download_flow w uid fid) s) /\
  Forall (fun e => is_probe e = false) (events_of (download_flow w uid fid) s).
Proof.
  intros Hss.
  pose proof (download_flow_events w uid fid s ss Hss) as He. cbv zeta in He.
  destruct (transport w (trace s) first_edit) as [e|] eqn:Hn.
  { rewrite He. split; repeat (apply Forall_cons; split; [try done; intros ??? [=]|]);
      by apply Forall_nil. }
  destruct (mkdtemp w (trace s ++ [first_edit])) as [d|e] eqn:Hd.
  2:{ rewrite He. split; repeat (apply Forall_cons; split; [try done; intros ??? [=]|]);
        by apply Forall_nil. }
  destruct He as (body & tail & -> & Ib & Fb & It & _).
  pose proof (in_order_upper _ _ It) as Ut.
  apply in_order_lower in Ib, It. split.
  - apply Forall_cons. split; [intros ??? [=]|].
    apply Forall_cons. split; [intros ??? [=]|].
    apply Forall_cons. split; [by intros ??? [= <- <- _]|].
    apply Forall_app. split.
    + eapply Forall_impl; [exact Ib|]. intros e He url fmt out ->. simpl in He. lia.
    + apply Forall_cons. split; [intros ??? [=]|].
      eapply Forall_impl; [exact It|]. intros e He url fmt out ->. simpl in He. lia.
  - do 3 (apply Forall_cons; split; [done|]).
    apply Forall_app. split.
    + eapply Forall_impl; [exact Fb|]. intros e He. apply stage_probe. simpl in He. lia.
    + apply Forall_cons. split; [done|].
      eapply Forall_impl; [exact Ut|]. intros e He. by apply stage_probe.
Qed.

Lemma is_link_message_inv text command has_link :
  is_link_message text command has_link = true ->
  text <> [] /\ command = None /\ has_link = true.
Proof.
  unfold is_link_message. intros [[H1 H2]%andb_true_iff H3]%andb_true_iff.
  apply negb_true_iff, bool_decide_eq_false in H1, H2.
  split; [done|]. split; [|done]. destruct command; [|done]. by destruct H2.
Qed.

Lemma lift_run {A} (r : result A) s : lift r s = (r, s).
Proof. reflexivity. Qed.

(** Every update, whatever its kind: it adds to the trace; its
    download calls are for the link of its sender's session; and it
    leaves the session map alone, or deletes the entry of its sender,
    or, being a new message with a link, gives its sender the stripped,
    recognised text it has just probed. *)
Lemma dispatch_summary w u s :
  exists evs,
    trace (dispatch w u s).2 = trace s ++ evs /\
    Forall (fun e => forall url fmt out, e = Download url fmt out ->
              exists uid ss,
                sender u = Some uid /\ user_context s !! uid = Some ss /\ url = link ss) evs /\
    (user_context (dispatch w u s).2 = user_context s \/
     (exists uid, sender u = Some uid /\
        user_context (dispatch w u s).2 = delete uid (user_context s)) \/
     exists uid raw i,
       u = Message uid raw None true /\
       is_youtube_link (strip raw) = true /\ Probe (strip raw) ∈ evs /\
       user_context (dispatch w u s).2 =
         <[uid := {| link := strip raw; sinfo := i |}]> (user_context s)).
Proof.
  assert (Hq : forall r : result unit,
             exists evs, trace (lift r s).2 = trace s ++ evs /\
               Forall (fun e => forall url fmt out, e = Download url fmt out ->
                         exists uid ss,
                           sender u = Some uid /\ user_context s !! uid = Some ss /\
                           url = link ss) evs /\
               (user_context (lift r s).2 = user_context s \/
                (exists uid, sender u = Some uid /\
                   user_context (lift r s).2 = delete uid (user_context s)) \/
                exists uid raw i,
                  u = Message uid raw None true /\
                  is_youtube_link (strip raw) = true /\ Probe (strip raw) ∈ evs /\
                  user_context (lift r s).2 =
                    <[uid := {| link := strip raw; sinfo := i |}]> (user_context s))).
  { intros r. exists []. simpl. rewrite app_nil_r.
    split; [done|]. split; [by apply Forall_nil|by left]. }
  destruct u as [uid text command has_link|uid text command has_link|text command has_link
                |uid data|]; cbn [dispatch].
  - destruct (is_start_command w text command).
    { unfold start. rewrite send_run. eexists. split; [reflexivity|].
      split; [|by left]. apply Forall_cons. split; [intros ??? [=]|by apply Forall_nil]. }
    destruct (is_link_message text command has_link) eqn:Hl; [|apply (Hq (Ok tt))].
    apply is_link_message_inv in Hl as (_ & -> & ->).
    destruct (handle_summary w uid text s) as (evs & Ht & Hd & Hc). exists evs.
    split; [done|]. split.
    + eapply Forall_impl; [exact Hd|]. by intros e He url fmt out ->.
    + destruct Hc as [Hc|(i & Hv & Hp & Hc)]; [by left|].
      right. right. by exists uid, text, i.
  - destruct (is_start_command w text command); [apply Hq|].
    destruct (is_link_message text command has_link); [apply Hq|apply (Hq (Ok tt))].
  - destruct (is_link_message text command has_link); [apply Hq|apply (Hq (Ok tt))].
  - destruct (user_context s !! uid) as [ss|] eqn:Hss.
    + rewrite (format_selected_with_session _ _ _ _ _ Hss).
      destruct (download_flow_extends w uid data s ss Hss) as (evs0 & Ht).
      apply events_of_extends in Ht. eexists. split; [exact Ht|]. split.
      * destruct (download_flow_downloads w uid data s ss Hss) as [Hd _].
        eapply Forall_impl; [exact Hd|]. intros e He url fmt out E.
        destruct (He _ _ _ E) as [-> _]. by exists uid, ss.
      * destruct (download_flow_sessions w uid data s ss Hss); [by left|].
        right. left. by exists uid.
    + rewrite (format_selected_without_session _ _ _ _ Hss). eexists. split; [reflexivity|].
      split; [|by left]. apply Forall_cons. split; [intros ??? [=]|by apply Forall_nil].
  - apply (Hq (Ok tt)).
Qed.

(** *** Invariants of the process *)

Lemma well_formed_idle : well_formed idle.
Proof.
  split.
  - intros uid ss Hu. simpl in Hu. by rewrite lookup_empty in Hu.
  - intros pre url fmt out post E. by destruct pre.
Qed.

Lemma well_formed_step w u s : well_formed s -> well_formed (dispatch w u s).2.
Proof.
  intros [Hs Hk]. destruct (dispatch_summary w u s) as (evs & Ht & Hd & Hc).
  split.
  - intros uid ss Hu. rewrite Ht.
    destruct Hc as [Hc|[(who & _ & Hc)|(who & raw & i & _ & Hv & Hp & Hc)]]; rewrite Hc in Hu.
    + destruct (Hs _ _ Hu) as (? & ? & ?). repeat split; auto.
      apply elem_of_app. by left.
    + apply lookup_delete_Some in Hu as [_ Hu].
      destruct (Hs _ _ Hu) as (? & ? & ?). repeat split; auto.
      apply elem_of_app. by left.
    + apply lookup_insert_Some in Hu as [[_ <-]|[_ Hu]]; simpl.
      * repeat split; auto; [apply strip_idemp|]. apply elem_of_app. by right.
      * destruct (Hs _ _ Hu) as (? & ? & ?). repeat split; auto.
        apply elem_of_app. by left.
  - intros pre url fmt out post E. rewrite Ht in E.
    assert (Hnew : Download url fmt out ∈ evs -> Probe url ∈ trace s).
    { intros Hin. rewrite Forall_forall in Hd.
      destruct (Hd _ Hin _ _ _ eq_refl) as (who & ss & _ & Hss & ->).
      by apply Hs in Hss as (_ & _ & ?). }
    apply app_eq_inv in E as [(k & E1 & E2)|(k & E1 & E2)].
    + destruct k as [|x k].
      * simpl in E2. rewrite app_nil_r in E1. subst pre.
        apply Hnew. rewrite <- E2. by left.
      * injection E2 as <- E2. by apply (Hk _ _ _ _ _ E1).
    + subst pre. apply elem_of_app. left. apply Hnew. rewrite E2.
      apply elem_of_app. right. by left.
Qed.

Lemma well_formed_serve w us s : well_formed s -> well_formed (serve w us s).
Proof.
  revert s. induction us as [|u us IH]; intros s Hs; [done|].
  cbn [serve]. by apply IH, well_formed_step.
Qed.

(** X1: blanks (spaces, tabs, line ends and the other characters
    [strip] removes) before and after a message text change nothing:
    the link handler does with the padded text exactly what it does
    with the text itself. *)
Theorem blanks_around_a_text_are_ignored (w : world) (user_id : Z)
    (before text after : pystr) (s : state) :
  Forall (fun c => isspace c = true) before ->
  Forall (fun c => isspace c = true) after ->
  handle_youtube_link w user_id (before ++ text ++ after) s =
  handle_youtube_link w user_id text s.
Proof.
  intros Hb Ha. unfold handle_youtube_link. by rewrite strip_padding.
Qed.

Lemma blanks_around_a_text_are_ignored_witness :
  handle_youtube_link sunny 7 ([32%N; 10%N] ++ a_link ++ [9%N; 160%N]) idle =
  handle_youtube_link sunny 7 a_link idle.
Proof.
  apply (blanks_around_a_text_are_ignored sunny 7 [32%N; 10%N] a_link [9%N; 160%N] idle);
    repeat constructor.
Defined.

(** X2: whether the link handler accepts a message is decided by the
    text as it was sent: it goes on to the "Analyzing" notice exactly
    when the text contains "youtube.com" or "youtu.be", and otherwise
    only sends the warning; what [strip] removes cannot contain or
    complete either of the two. *)
Theorem acceptance_reads_the_raw_text (w : world) (user_id : Z) (message_text : pystr)
    (s : state) :
  is_youtube_link (strip message_text) = is_youtube_link message_text /\
  if contains (lit "youtube.com") message_text || contains (lit "youtu.be") message_text
  then exists rest, events_of (handle_youtube_link w user_id message_text) s = notice :: rest
  else events_of (handle_youtube_link w user_id message_text) s =
         [ReplyText msg_invalid_link false None] /\
       sessions_after (handle_youtube_link w user_id message_text) s = user_context s.
Proof.
  split; [apply is_youtube_link_strip|].
  fold (is_youtube_link message_text). rewrite <- is_youtube_link_strip.
  unfold events_of, sessions_after.
  destruct (is_youtube_link (strip message_text)) eqn:Hv.
  - rewrite (handle_accepts _ _ _ _ Hv).
    destruct (transport w (trace s) notice) as [e|] eqn:Hn.
    + rewrite (probe_flow_notice_fails _ _ _ _ _ Hn). simpl.
      rewrite drop_app_length. by eexists.
    + destruct (probe_flow_cases w user_id (strip message_text) s Hn) as (rest & -> & _).
      rewrite drop_app_length. by eexists.
  - rewrite (handle_rejects _ _ _ _ Hv). simpl. by rewrite drop_app_length.
Qed.

(** X3: after any number of updates, handled from the start of the
    process, every session in [user_context] holds a link that
    contains one of the two domains, has no blank at either end, and
    has been probed. *)
Theorem sessions_hold_probed_links (w : world) (updates : list update)
    (user_id : Z) (ss : session) :
  user_context (serve w updates idle) !! user_id = Some ss ->
  is_youtube_link (link ss) = true /\
  strip (link ss) = link ss /\
  Probe (link ss) ∈ trace (serve w updates idle).
Proof.
  intros Hu. destruct (well_formed_serve w updates idle well_formed_idle) as [Hs _].
  by apply (Hs user_id).
Qed.

Lemma sessions_hold_probed_links_witness :
  is_youtube_link a_link = true /\ strip a_link = a_link /\
  Probe a_link ∈ trace (serve sunny [Message 7 ([32%N] ++ a_link) None true] idle).
Proof.
  apply (sessions_hold_probed_links sunny [Message 7 ([32%N] ++ a_link) None true] 7
           {| link := a_link; sinfo := video_info |}).
  vm_compute. reflexivity.
Defined.

(** X4: after any number of updates, handled from the start of the
    process, every download call in the trace comes after a probe of
    the same link: the script never downloads what it has not
    probed. *)
Theorem downloads_follow_probes (w : world) (updates : list update)
    (pre post : list event) (url format outtmpl : pystr) :
  trace (serve w updates idle) = pre ++ Download url format outtmpl :: post ->
  Probe url ∈ pre.
Proof.
  intros E. destruct (well_formed_serve w updates idle well_formed_idle) as [_ Hk].
  by apply (Hk _ _ _ _ _ E).
Qed.

Lemma downloads_follow_probes_witness :
  Probe a_link ∈ [notice; Probe a_link; PutSession 7;
                  menu_message video_info (PStr (lit "snake_case demo"));
                  first_edit; MkTemp].
Proof.
  apply (downloads_follow_probes sunny
           [Message 7 a_link None true; CallbackQuery 7 (lit "22")]
           _ [EditText (msg_progress ++ lit "50.0%");
              PrepareFilename video_info; OpenFile (lit "/tmp/tmpk3v9/abc123.mp4");
              ReplyVideo (lit "/tmp/tmpk3v9/abc123.mp4")
                (caption_of (PStr (lit "snake_case demo")));
              Cleanup (lit "/tmp/tmpk3v9"); DelSession 7; last_edit]
           a_link (lit "22") (lit "/tmp/tmpk3v9/%(id)s.%(ext)s")).
  vm_compute. reflexivity.
Defined.

Lemma serve_frame w us s other :
  Forall (fun u => sender u <> Some other) us ->
  user_context (serve w us s) !! other = user_context s !! other.
Proof.
  intros Hus. revert s. induction Hus as [|u us Hu _ IH]; intros s; [done|].
  cbn [serve]. rewrite IH.
  destruct (dispatch_summary w u s)
    as (_ & _ & _ & [->|[(who & Hw & ->)|(who & raw & i & -> & _ & _ & ->)]]).
  - done.
  - rewrite lookup_delete_ne; [done|]. intros ->. done.
  - rewrite lookup_insert_ne; [done|]. intros ->. done.
Qed.

(** X5: whatever the other users send, and however many updates it
    takes, a user's entry in [user_context] stays as it is: an update
    only ever touches the session of its own sender. *)
Theorem other_users_leave_a_session_alone (w : world) (updates : list update)
    (s : state) (user_id : Z) :
  Forall (fun u => sender u <> Some user_id) updates ->
  user_context (serve w updates s) !! user_id = user_context s !! user_id.
Proof. apply serve_frame. Qed.

Lemma other_users_leave_a_session_alone_witness :
  user_context (serve sunny [Message 8 a_link None true; CallbackQuery 9 (lit "22");
                             CallbackQuery 8 (lit "251")] awaiting) !! 7 =
  Some {| link := a_link; sinfo := video_info |}.
Proof.
  apply (other_users_leave_a_session_alone sunny
           [Message 8 a_link None true; CallbackQuery 9 (lit "22");
            CallbackQuery 8 (lit "251")] awaiting 7).
  repeat constructor; discriminate.
Defined.

Lemma download_flow_returns w uid fid s ss :
  (forall hist e, transport w hist e = None) ->
  user_context s !! uid = Some ss ->
  (download_flow w uid fid s).1 = Ok tt.
Proof.
  intros Hw Hss. rewrite download_flow_run, Hw.
  pose proof (fetch_and_send_sessions w uid fid (record first_edit s) ss Hss) as Hc.
  destruct (fetch_and_send w uid fid (record first_edit s)) as [[[]|e] s1]; simpl in Hc.
  - rewrite (del_session_run uid s1 ss) by (by rewrite Hc). by rewrite Hw.
  - by rewrite download_error_run, Hw.
Qed.

Lemma handle_returns w uid text s :
  (forall hist e, transport w hist e = None) ->
  (handle_youtube_link w uid text s).1 = Ok tt.
Proof.
  intros Hw. destruct (is_youtube_link (strip text)) eqn:Hv.
  2:{ by rewrite (handle_rejects _ _ _ _ Hv), Hw. }
  rewrite (handle_accepts _ _ _ _ Hv).
  destruct (extract_probe w (trace s ++ [notice]) (strip text)) as [i|e] eqn:Hp.
  - rewrite (probe_flow_probe_ok _ _ _ _ _ (Hw _ _) Hp). cbv zeta.
    destruct (fields i !! "title"); rewrite ?Hw; [done|].
    by rewrite format_error_run, Hw.
  - by rewrite (probe_flow_probe_fails _ _ _ _ _ (Hw _ _) Hp), format_error_run, Hw.
Qed.

Lemma split_whole (sep : N) (s : pystr) :
  Forall (fun c => c <> sep) s -> str_split sep s = [s].
Proof.
  induction 1 as [|c s Hc _ IH]; [done|]. cbn -[N.eqb].
  destruct (N.eqb_spec c sep); [done|]. by rewrite IH.
Qed.

(** The command [start], in any case of its letters and without a
    user name after it, is for this bot. *)
Lemma start_command_accepted w text n :
  lower (take (n - 1) (drop 1 text)) = lit "start" ->
  is_start_command w text (Some n) = true.
Proof.
  intros Hl. unfold is_start_command. cbv zeta.
  set (name := take (n - 1) (drop 1 text)) in *.
  assert (Hname : Forall (fun c => c <> 64%N) name).
  { apply Forall_forall. intros c Hc ->.
    assert (Hin : lower_char 64 ∈ lower name) by (by apply list_elem_of_fmap_2).
    rewrite Hl in Hin. vm_compute in Hin.
    repeat (apply elem_of_cons in Hin as [Hin|Hin]; [discriminate|]).
    by apply elem_of_nil in Hin. }
  rewrite (split_whole _ _ Hname). cbn [app lookup list_lookup fmap option_fmap option_map].
  rewrite Hl. by rewrite !bool_decide_eq_true_2.
Qed.

Lemma link_message_accepted text has_link :
  text <> [] -> has_link = true -> is_link_message text None has_link = true.
Proof.
  intros Ht ->. unfold is_link_message.
  rewrite bool_decide_eq_false_2 by done.
  rewrite bool_decide_eq_false_2 by (by intros [? ?]). done.
Qed.

(** X6: when the transport accepts every call, no exception leaves a
    handler for a new message or a button press, whatever the
    extraction library and the file system do: everything they raise,
    and every error of the progress hook, ends in one of the two
    [except] blocks.  An edited message or a channel post is another
    matter: it is dropped, or else its handler reads [update.message]
    or [update.effective_user], which is [None], and is left with an
    [AttributeError] before anything is sent or changed.  That is what
    happens to an edited [/start] (line 24), to an edited text with a
    link (line 90) and to a channel post with a link (line 89). *)
Theorem exceptions_that_leave_a_handler (w : world) (u : update) (s : state) :
  (forall hist e, transport w hist e = None) ->
  let reads attr :=
    Raise (AttributeError (lit "'NoneType' object has no attribute '" ++ attr ++ lit "'")) in
  match u with
  | Message _ _ _ _ | CallbackQuery _ _ | OtherUpdate =>
      outcome (dispatch w u) s = Ok tt
  | EditedMessage _ text command has_link =>
      events_of (dispatch w u) s = [] /\
      sessions_after (dispatch w u) s = user_context s /\
      (outcome (dispatch w u) s = Ok tt \/
       outcome (dispatch w u) s = reads (lit "reply_text") \/
       outcome (dispatch w u) s = reads (lit "text")) /\
      (forall n, command = Some n -> lower (take (n - 1) (drop 1 text)) = lit "start" ->
         outcome (dispatch w u) s = reads (lit "reply_text")) /\
      (text <> [] -> command = None -> has_link = true ->
         outcome (dispatch w u) s = reads (lit "text"))
  | ChannelPost text command has_link =>
      events_of (dispatch w u) s = [] /\
      sessions_after (dispatch w u) s = user_context s /\
      (outcome (dispatch w u) s = Ok tt \/
       outcome (dispatch w u) s = reads (lit "id")) /\
      (text <> [] -> command = None -> has_link = true ->
         outcome (dispatch w u) s = reads (lit "id"))
  end.
Proof.
  intros Hw reads. unfold outcome, events_of, sessions_after.
  destruct u as [uid text command has_link|uid text command has_link|text command has_link
                |uid data|]; cbn [dispatch].
  - destruct (is_start_command w text command); [unfold start; by rewrite send_run, Hw|].
    destruct (is_link_message text command has_link); [by apply handle_returns|done].
  - split; [|split; [|split; [|split]]].
    + destruct (is_start_command w text command); [by rewrite lift_run, drop_all|].
      destruct (is_link_message text command has_link); by rewrite ?lift_run, drop_all.
    + destruct (is_start_command w text command); [done|].
      by destruct (is_link_message text command has_link).
    + destruct (is_start_command w text command); [right; by left|].
      destruct (is_link_message text command has_link); [right; by right|by left].
    + intros n -> Hl. by rewrite (start_command_accepted w text n Hl).
    + intros Ht -> Hh. cbn [is_start_command]. by rewrite (link_message_accepted _ _ Ht Hh).
  - split; [|split; [|split]].
    + destruct (is_link_message text command has_link); by rewrite ?lift_run, drop_all.
    + by destruct (is_link_message text command has_link).
    + destruct (is_link_message text command has_link); [by right|by left].
    + intros Ht -> Hh. by rewrite (link_message_accepted _ _ Ht Hh).
  - destruct (user_context s !! uid) as [ss|] eqn:Hss.
    + rewrite (format_selected_with_session _ _ _ _ _ Hss). by apply download_flow_returns with ss.
    + by rewrite (format_selected_without_session _ _ _ _ Hss), Hw.
  - done.
Qed.

Lemma exceptions_that_leave_a_handler_witness :
  outcome (dispatch stalled (CallbackQuery 7 (lit "22"))) awaiting = Ok tt /\
  outcome (dispatch stalled (EditedMessage 7 (lit "/Start now") (Some 6%nat) false)) awaiting =
    Raise (AttributeError (lit "'NoneType' object has no attribute 'reply_text'")) /\
  outcome (dispatch stalled (ChannelPost a_link None true)) awaiting =
    Raise (AttributeError (lit "'NoneType' object has no attribute 'id'")).
Proof.
  assert (Hw : forall hist e, transport stalled hist e = None) by reflexivity.
  split; [|split].
  - exact (exceptions_that_leave_a_handler stalled (CallbackQuery 7 (lit "22")) awaiting Hw).
  - exact (proj1 (proj2 (proj2 (proj2
      (exceptions_that_leave_a_handler stalled
         (EditedMessage 7 (lit "/Start now") (Some 6%nat) false) awaiting Hw))))
      6%nat eq_refl eq_refl).
  - exact (proj2 (proj2 (proj2
      (exceptions_that_leave_a_handler stalled (ChannelPost a_link None true) awaiting Hw)))
      ltac:(discriminate) eq_refl eq_refl).
Defined.

(** What [CommandHandler("start", start)] takes for its command. *)
Example start_command_examples :
  let bot := lit "JossYT_bot" in
  is_start_command sunny (lit "/start") (Some 6%nat) = true /\
  is_start_command sunny (lit "/START hello") (Some 6%nat) = true /\
  is_start_command sunny (lit "/start@jossyt_BOT") (Some 17%nat) = true /\
  is_start_command sunny (lit "/start@OtherBot") (Some 15%nat) = false /\
  is_start_command sunny (lit "/start@") (Some 7%nat) = false /\
  is_start_command sunny (lit "/started") (Some 8%nat) = false /\
  is_start_command sunny (lit "/help") (Some 5%nat) = false /\
  is_start_command sunny (lit "start") None = false /\
  bot_username sunny = bot.
Proof. vm_compute. repeat split. Qed.

Lemma fetch_returned_dir w uid fid s :
  (fetch_and_send w uid fid s).1 = Ok tt -> exists d, mkdtemp w (trace s) = Ok d.
Proof.
  destruct (mkdtemp w (trace s)) as [d|e] eqn:Hd; [by eexists|].
  by rewrite (fetch_and_send_no_dir _ _ _ _ _ Hd).
Qed.

(** X7: a link and then a press, for a user who had no session: when
    the probe returns and the [with] block of the press returns, the
    download call is for the stripped text of the message with the
    format of the press, and the session map is back to what it was
    before the link. *)
Theorem link_then_press (w : world) (user_id : Z) (message_text format_id : pystr)
    (s : state) (i : info) :
  user_context s !! user_id = None ->
  is_youtube_link (strip message_text) = true ->
  transport w (trace s) notice = None ->
  extract_probe w (trace s ++ [notice]) (strip message_text) = Ok i ->
  let s1 := (handle_youtube_link w user_id message_text s).2 in
  transport w (trace s1) first_edit = None ->
  outcome (fetch_and_send w user_id format_id) (record first_edit s1) = Ok tt ->
  sessions_after (format_selected w user_id format_id) s1 = user_context s /\
  exists d rest,
    events_of (format_selected w user_id format_id) s1 =
      first_edit :: MkTemp :: Download (strip message_text) format_id (outtmpl_in d) :: rest.
Proof.
  intros Hno Hv Hn Hp s1 He Hf. unfold outcome in Hf.
  assert (Hc : user_context s1 =
               <[user_id := {| link := strip message_text; sinfo := i |}]> (user_context s))
    by (by apply handle_stores_session).
  assert (Hss : user_context s1 !! user_id = Some {| link := strip message_text; sinfo := i |})
    by (by rewrite Hc, lookup_insert_eq).
  unfold sessions_after, events_of.
  rewrite (format_selected_with_session _ _ _ _ _ Hss). split.
  - destruct (download_flow_tail w user_id format_id s1 _ Hss He) as (tail & _ & _ & Ht).
    rewrite Hf in Ht. destruct Ht as [-> _]. rewrite Hc. by apply delete_insert_id.
  - destruct (fetch_returned_dir _ _ _ _ Hf) as (d & Hd).
    pose proof (download_flow_events w user_id format_id s1 _ Hss) as Hev. cbv zeta in Hev.
    rewrite He in Hev. simpl in Hd. rewrite Hd in Hev.
    destruct Hev as (body & tail & Hev & _). exists d. eexists. exact Hev.
Qed.

Lemma link_then_press_witness :
  sessions_after (format_selected sunny 7 (lit "22"))
    (handle_youtube_link sunny 7 a_link idle).2 = ∅.
Proof.
  apply (link_then_press sunny 7 a_link (lit "22") idle video_info); reflexivity.
Defined.

(** X8: a second press.  After a press by a user with a session, if
    the [with] block returned, a further press by that user only gets
    the "send a link first" warning, whatever format it carries; if
    the block raised, the session is still there and the further press
    runs the download flow again, for the same link. *)
Theorem second_press (w : world) (user_id : Z) (format_id again : pystr)
    (s : state) (ss : session) :
  user_context s !! user_id = Some ss ->
  transport w (trace s) first_edit = None ->
  let s1 := (format_selected w user_id format_id s).2 in
  match outcome (fetch_and_send w user_id format_id) (record first_edit s) with
  | Ok _ =>
      events_of (format_selected w user_id again) s1 = [Answer msg_send_link_first] /\
      sessions_after (format_selected w user_id again) s1 = user_context s1
  | Raise _ =>
      user_context s1 !! user_id = Some ss /\
      format_selected w user_id again s1 = download_flow w user_id again s1 /\
      Forall (fun e => forall url fmt out,
                e = Download url fmt out -> url = link ss /\ fmt = again)
        (events_of (format_selected w user_id again) s1)
  end.
Proof.
  intros Hss Hn s1. subst s1. unfold outcome.
  rewrite (format_selected_with_session _ _ _ _ _ Hss).
  destruct (download_flow_tail w user_id format_id s ss Hss Hn) as (tail & _ & _ & Ht).
  destruct (fetch_and_send w user_id format_id (record first_edit s)).1;
    destruct Ht as [Hc _].
  - assert (Hno : user_context (download_flow w user_id format_id s).2 !! user_id = None)
      by (by rewrite Hc, lookup_delete_eq).
    unfold events_of, sessions_after.
    rewrite (format_selected_without_session _ _ _ _ Hno). simpl.
    by rewrite drop_app_length.
  - assert (Hss' : user_context (download_flow w user_id format_id s).2 !! user_id = Some ss)
      by (by rewrite Hc).
    split; [done|]. split; [by apply format_selected_with_session with ss|].
    unfold events_of. rewrite (format_selected_with_session _ _ _ _ _ Hss').
    by apply download_flow_downloads.
Qed.

Lemma second_press_witness :
  events_of (format_selected sunny 7 (lit "22"))
    (format_selected sunny 7 (lit "22") awaiting).2 = [Answer msg_send_link_first].
Proof.
  pose proof (second_press sunny 7 (lit "22") (lit "22") awaiting
                {| link := a_link; sinfo := video_info |} eq_refl eq_refl) as H.
  cbv zeta in H.
  change (outcome (fetch_and_send sunny 7 (lit "22")) (record first_edit awaiting))
    with (Ok tt : result unit) in H.
  exact (proj1 H).
Defined.

(** X9: an exception of the progress hook ends the download.  When
    the hook raises [e] on one of the dictionaries the library reports
    (a missing ['status'], a ['total_bytes'] of 0 or [None], a refused
    edit), no file name is asked for and nothing is opened or sent,
    whatever the library itself would have returned: after the edits
    the hook did make, the directory is released, the error is logged
    and the user is told; the session stays. *)
Theorem failing_hook_aborts_download (w : world) (user_id : Z) (format_id : pystr)
    (s : state) (ss : session) (d : pystr) (chunks : list dict) (r : result info) (e : exn) :
  user_context s !! user_id = Some ss ->
  transport w (trace s) first_edit = None ->
  mkdtemp w (trace s ++ [first_edit]) = Ok d ->
  extract_download w (trace s ++ [first_edit; MkTemp]) (link ss) format_id (outtmpl_in d)
    = (chunks, r) ->
  outcome (run_hooks w chunks)
    {| user_context := user_context s;
       trace := trace s ++ [first_edit; MkTemp; Download (link ss) format_id (outtmpl_in d)] |}
    = Raise e ->
  sessions_after (format_selected w user_id format_id) s = user_context s /\
  exists edits e',
    Forall (fun ev => stage ev = 3%nat) edits /\
    (e' = e \/ exists hist, rmtree w hist d = Some e') /\
    events_of (format_selected w user_id format_id) s =
      first_edit :: MkTemp :: Download (link ss) format_id (outtmpl_in d) :: edits ++
      [Cleanup d; LogError (lit "Download error: " ++ str_exn e');
       EditText (msg_failed ++ take 100 (str_exn e'))].
Proof.
  intros Hss Hn Hd Hx Hh. unfold outcome in Hh. unfold sessions_after, events_of.
  rewrite (format_selected_with_session _ _ _ _ _ Hss), download_flow_run, Hn.
  rewrite fetch_and_send_run. cbn [trace record]. rewrite Hd.
  assert (Hss' : user_context (record MkTemp (record first_edit s)) !! user_id = Some ss) by done.
  rewrite (fetch_into_run w user_id format_id d _ ss chunks r Hss').
  2:{ cbn [trace record]. rewrite <- app_assoc. exact Hx. }
  destruct (run_hooks_trace w chunks
              (record (Download (link ss) format_id (outtmpl_in d))
                 (record MkTemp (record first_edit s)))) as (edits & Th & Ch & Fh & _).
  replace (record (Download (link ss) format_id (outtmpl_in d))
             (record MkTemp (record first_edit s)))
    with {| user_context := user_context s;
            trace := trace s ++ [first_edit; MkTemp;
                                 Download (link ss) format_id (outtmpl_in d)] |} in *
    by (unfold record; cbn [trace user_context]; by rewrite <- !app_assoc).
  destruct (run_hooks w chunks _) as [[[]|e0] s4]; [done|]. injection Hh as ->.
  cbn [fst snd trace user_context] in Th, Ch.
  destruct (rmtree w (trace s4) d) as [e'|] eqn:Hr.
  - rewrite download_error_run. cbn [fst snd trace user_context record]. rewrite Ch.
    split; [done|]. exists edits, e'. split; [done|]. split; [right; by eexists|].
    rewrite Th, <- !app_assoc. cbn [app]. by rewrite drop_app_length.
  - rewrite download_error_run. cbn [fst snd trace user_context record]. rewrite Ch.
    split; [done|]. exists edits, e. split; [done|]. split; [by left|].
    rewrite Th, <- !app_assoc. cbn [app]. by rewrite drop_app_length.
Qed.

Lemma failing_hook_aborts_download_witness :
  events_of (format_selected stalled 7 (lit "22")) awaiting =
    [first_edit; MkTemp; Download a_link (lit "22") (lit "/tmp/tmpk3v9/%(id)s.%(ext)s");
     Cleanup (lit "/tmp/tmpk3v9");
     LogError (lit "Download error: division by zero");
     EditText (msg_failed ++ lit "division by zero")] /\
  sessions_after (format_selected stalled 7 (lit "22")) awaiting = user_context awaiting.
Proof.
  destruct (failing_hook_aborts_download stalled 7 (lit "22") awaiting
              {| link := a_link; sinfo := video_info |} (lit "/tmp/tmpk3v9")
              [chunk "downloading" 0 0; chunk "finished" 1024 1024] (Ok video_info)
              ZeroDivisionError eq_refl eq_refl eq_refl eq_refl eq_refl) as [H _].
  split; [vm_compute; reflexivity | exact H].
Defined.


(** X11: metadata in which no descriptor has both a format identifier
    and an extension (or which has no ['formats'] at all) is not an
    error: the session is stored and the "Select your format" message
    goes out with a keyboard that has no button. *)
Theorem no_usable_format (w : world) (user_id : Z) (message_text : pystr) (s : state)
    (i : info) (title : pyval) :
  is_youtube_link (strip message_text) = true ->
  transport w (trace s) notice = None ->
  extract_probe w (trace s ++ [notice]) (strip message_text) = Ok i ->
  Forall (fun f => selectable f = false) (get_formats i) ->
  fields i !! "title" = Some title ->
  sessions_after (handle_youtube_link w user_id message_text) s !! user_id =
    Some {| link := strip message_text; sinfo := i |} /\
  exists rest,
    events_of (handle_youtube_link w user_id message_text) s =
      notice :: Probe (strip message_text) :: PutSession user_id ::
      ReplyText (msg_select title) true (Some []) :: rest.
Proof.
  intros Hv Hn Hp Hf Ht. unfold sessions_after, events_of.
  rewrite (handle_accepts _ _ _ _ Hv), (probe_flow_probe_ok _ _ _ _ _ Hn Hp). cbv zeta.
  rewrite Ht. unfold menu_message.
  assert (E : menu_of (get_formats i) = []).
  { unfold menu_of. replace (filter _ (get_formats i)) with (@nil dict); [done|].
    symmetry. induction Hf as [|f fs Hs _ IH]; [done|].
    rewrite filter_cons, decide_False by congruence. done. }
  rewrite E. cbn [fmap list_fmap].
  match goal with
  | |- context [match transport w ?h ?e with _ => _ end] => destruct (transport w h e)
  end.
  - rewrite format_error_run. cbn [fst snd trace user_context record].
    rewrite lookup_insert_eq. split; [done|].
    rewrite <- !app_assoc. cbn [app]. rewrite drop_app_length. by eexists.
  - cbn [fst snd trace user_context record].
    rewrite lookup_insert_eq. split; [done|].
    rewrite <- !app_assoc. cbn [app]. rewrite drop_app_length. by eexists.
Qed.

Lemma no_usable_format_witness :
  sessions_after (handle_youtube_link bare 7 a_link) idle !! 7 =
    Some {| link := a_link; sinfo := bare_info |} /\
  events_of (handle_youtube_link bare 7 a_link) idle =
    [notice; Probe a_link; PutSession 7;
     ReplyText (msg_select (PStr (lit "live stream"))) true (Some [])].
Proof.
  destruct (no_usable_format bare 7 a_link idle bare_info (PStr (lit "live stream"))
              eq_refl eq_refl eq_refl) as [H _].
  - repeat constructor.
  - reflexivity.
  - split; [exact H | vm_compute; reflexivity].
Defined.

Lemma format_selected_sessions w uid fid s :
  user_context (format_selected w uid fid s).2 = user_context s \/
  user_context (format_selected w uid fid s).2 = delete uid (user_context s).
Proof.
  destruct (user_context s !! uid) as [ss|] eqn:Hss.
  - rewrite (format_selected_with_session _ _ _ _ _ Hss). by apply download_flow_sessions with ss.
  - rewrite (format_selected_without_session _ _ _ _ Hss). by left.
Qed.

(** X12: a press never creates or changes a session, and a link never
    removes one: an entry found after [format_selected] was there
    before, unchanged, and every user who had a session before
    [handle_youtube_link] has one after it. *)
Theorem presses_only_delete_and_links_only_store (w : world) (user_id : Z)
    (data : pystr) (s : state) :
  (forall who ss,
     sessions_after (format_selected w user_id data) s !! who = Some ss ->
     user_context s !! who = Some ss) /\
  (forall who,
     is_Some (user_context s !! who) ->
     is_Some (sessions_after (handle_youtube_link w user_id data) s !! who)).
Proof.
  unfold sessions_after. split.
  - intros who ss. destruct (format_selected_sessions w user_id data s) as [->| ->]; [done|].
    by intros [_ ?]%lookup_delete_Some.
  - intros who Hw. destruct (handle_summary w user_id data s) as (_ & _ & _ & [->|(i & _ & _ & ->)]);
      [done|].
    destruct (decide (user_id = who)) as [->|Hne].
    + rewrite lookup_insert_eq. by eexists.
    + by rewrite lookup_insert_ne.
Qed.

(** *** Errors are reported *)

Lemma errors_reported_skip evs1 evs2 :
  Forall (fun e => stage e <> 10%nat) evs1 ->
  errors_reported evs2 -> errors_reported (evs1 ++ evs2).
Proof.
  induction 1 as [|e evs1 He _ IH]; intros H2; [done|].
  cbn [app]. destruct e; try (by apply IH). done.
Qed.

Lemma download_flow_tail_cases w uid fid s ss :
  user_context s !! uid = Some ss ->
  transport w (trace s) first_edit = None ->
  exists tail,
    trace (download_flow w uid fid s).2 =
      trace (fetch_and_send w uid fid (record first_edit s)).2 ++ tail /\
    errors_reported tail.
Proof.
  intros Hss Hn. rewrite download_flow_run, Hn.
  pose proof (fetch_and_send_sessions w uid fid (record first_edit s) ss Hss) as Hc.
  destruct (fetch_and_send w uid fid (record first_edit s)) as [[[]|e] s1];
    simpl in Hc; cbn [fst snd].
  - rewrite (del_session_run uid s1 ss) by (by rewrite Hc).
    cbn [trace]. destruct (transport w _ last_edit) as [e|].
    + rewrite download_error_run. cbn [snd trace record].
      exists [DelSession uid; last_edit; LogError (lit "Download error: " ++ str_exn e);
              EditText (msg_failed ++ take 100 (str_exn e))].
      rewrite <- !app_assoc. split; [done|]. cbn. eauto.
    + cbn [snd trace record]. exists [DelSession uid; last_edit].
      rewrite <- !app_assoc. split; [done|]. by cbn.
  - rewrite download_error_run. cbn [snd trace].
    exists [LogError (lit "Download error: " ++ str_exn e);
            EditText (msg_failed ++ take 100 (str_exn e))].
    split; [done|]. cbn. eauto.
Qed.

(** X13: no error is logged without the user being told.  In the
    events of any update, a logged error is the text "Download error: "
    or "Format error: " followed by the text of the exception, the
    event after it is the report to the user with the first 100
    characters of that same text, and nothing follows the report. *)
Theorem logged_errors_are_reported (w : world) (u : update) (s : state) :
  errors_reported (events_of (dispatch w u) s).
Proof.
  unfold events_of.
  destruct u as [uid text command has_link|uid text command has_link|text command has_link
                |uid data|]; cbn [dispatch].
  2:{ destruct (is_start_command w text command); [by rewrite lift_run, drop_all|].
      destruct (is_link_message text command has_link); by rewrite ?lift_run, drop_all. }
  2:{ destruct (is_link_message text command has_link); by rewrite ?lift_run, drop_all. }
  3:{ simpl. by rewrite drop_all. }
  - destruct (is_start_command w text command).
    { unfold start. rewrite send_run. simpl. by rewrite drop_app_length. }
    destruct (is_link_message text command has_link); [|simpl; by rewrite drop_all].
    destruct (is_youtube_link (strip text)) eqn:Hv.
    2:{ rewrite (handle_rejects _ _ _ _ Hv). simpl. by rewrite drop_app_length. }
    rewrite (handle_accepts _ _ _ _ Hv).
    destruct (transport w (trace s) notice) as [e|] eqn:Hn.
    { rewrite (probe_flow_notice_fails _ _ _ _ _ Hn). simpl. by rewrite drop_app_length. }
    destruct (extract_probe w (trace s ++ [notice]) (strip text)) as [i|e] eqn:Hp.
    + rewrite (probe_flow_probe_ok _ _ _ _ _ Hn Hp). cbv zeta.
      destruct (fields i !! "title") as [t|].
      * destruct (transport w _ (menu_message i t)).
        -- rewrite format_error_run. simpl. rewrite <- !app_assoc, drop_app_length.
           cbn. eauto.
        -- simpl. rewrite <- !app_assoc, drop_app_length. by cbn.
      * rewrite format_error_run. simpl. rewrite <- !app_assoc, drop_app_length.
        cbn. eauto.
    + rewrite (probe_flow_probe_fails _ _ _ _ _ Hn Hp), format_error_run. simpl.
      rewrite <- !app_assoc, drop_app_length. cbn. eauto.
  - destruct (user_context s !! uid) as [ss|] eqn:Hss.
    2:{ rewrite (format_selected_without_session _ _ _ _ Hss). simpl.
        by rewrite drop_app_length. }
    rewrite (format_selected_with_session _ _ _ _ _ Hss).
    destruct (transport w (trace s) first_edit) as [e|] eqn:Hn.
    { rewrite download_flow_run, Hn. simpl. by rewrite drop_app_length. }
    destruct (download_flow_tail_cases w uid data s ss Hss Hn) as (tail & -> & Ht).
    destruct (mkdtemp w (trace s ++ [first_edit])) as [d|e] eqn:Hd.
    + destruct (fetch_and_send_trace w uid data (record first_edit s) ss d Hss Hd)
        as (body & -> & _ & _ & Fb & _).
      simpl. rewrite <- !app_assoc. simpl. rewrite drop_app_length.
      rewrite <- app_assoc.
      change (errors_reported (body ++ Cleanup d :: tail)).
      apply errors_reported_skip; [|done].
      eapply Forall_impl; [exact Fb|]. intros ev Hev. simpl in Hev. lia.
    + rewrite (fetch_and_send_no_dir w uid data (record first_edit s) e Hd). simpl.
      rewrite <- !app_assoc, drop_app_length. done.
Qed.

(** *** Where sessions come from *)

Lemma serve_origin w us s uid ss :
  user_context (serve w us s) !! uid = Some ss ->
  user_context s !! uid = Some ss \/
  exists raw, Message uid raw None true ∈ us /\ link ss = strip raw.
Proof.
  revert s. induction us as [|u us IH]; intros s Hu; [by left|].
  cbn [serve] in Hu. destruct (IH _ Hu) as [Hu'|(raw & Hin & E)].
  2:{ right. exists raw. split; [by right|done]. }
  destruct (dispatch_summary w u s)
    as (_ & _ & _ & [Hc|[(who & _ & Hc)|(who & raw & i & Eu & _ & _ & Hc)]]);
    rewrite Hc in Hu'.
  - by left.
  - apply lookup_delete_Some in Hu' as [_ ?]. by left.
  - apply lookup_insert_Some in Hu' as [[<- <-]|[_ ?]]; [|by left].
    right. exists raw. split; [|done]. rewrite Eu. by left.
Qed.

(** X14: sessions come from link messages only.  After any number of
    updates, handled from the start of the process, a user who has a
    session has sent a text message with a link entity among those
    updates, and the link of the session is the stripped text of such
    a message. *)
Theorem sessions_come_from_links (w : world) (updates : list update)
    (user_id : Z) (ss : session) :
  user_context (serve w updates idle) !! user_id = Some ss ->
  exists raw, Message user_id raw None true ∈ updates /\ link ss = strip raw.
Proof.
  intros Hu. destruct (serve_origin w updates idle user_id ss Hu) as [H|H]; [|done].
  simpl in H. by rewrite lookup_empty in H.
Qed.

Lemma sessions_come_from_links_witness :
  exists raw,
    Message 7 raw None true ∈
      [CallbackQuery 7 (lit "start"); Message 7 ([32%N] ++ a_link) None true] /\
    a_link = strip raw.
Proof.
  apply (sessions_come_from_links sunny
           [CallbackQuery 7 (lit "start"); Message 7 ([32%N] ++ a_link) None true] 7
           {| link := a_link; sinfo := video_info |}).
  vm_compute. reflexivity.
Defined.
